(** * EPUB repair and upgrade tool: a shallow embedding and its properties

    The development follows the Python sources of the repository:
    - [epub_repair/models.py]           the book model,
    - [epub_repair/reporting.py]        the reporter,
    - [epub_repair/rules/*.py]          the repair rules,
    - [epub_repair/cli.py]              the rule pipeline,
    - [epub_upgrade/nav_conversion.py]  the NCX to nav.xhtml conversion.

    A Python [str] is modelled by the [string] that holds its UTF-8
    encoding.  The keywords, markers and separators of the sources are
    ASCII, and a byte below 128 in a UTF-8 string always stands for
    itself, so the tests for prefixes and substrings are tests on bytes.
    Whitespace is the set of [str.isspace()], with the characters outside
    ASCII; the digits are the ASCII digits. *)

From Stdlib Require Import String Ascii List ZArith Lia Bool DecimalString.
From stdpp Require Import base option list gmap strings.

Open Scope string_scope.
Open Scope list_scope.

(* ===================================================================== *)
(** * Python built-ins used by the sources                                *)
(* ===================================================================== *)

Module Py.

(** [c.lower()] on one ASCII character. *)
Definition lower_ascii (c : ascii) : ascii :=
  let n := nat_of_ascii c in
  if (65 <=? n)%nat && (n <=? 90)%nat then ascii_of_nat (n + 32) else c.

(** The bytes [a], [b] (and [c]) are the given numbers. *)
Definition bytes2 (a b : ascii) (x y : nat) : bool :=
  (nat_of_ascii a =? x)%nat && (nat_of_ascii b =? y)%nat.
Definition bytes3 (a b c : ascii) (x y z : nat) : bool :=
  (nat_of_ascii a =? x)%nat && (nat_of_ascii b =? y)%nat && (nat_of_ascii c =? z)%nat.

(** [s.lower()].  The sources only look for ASCII keywords in the
    result, so what counts is where ASCII letters come from: from the
    letters A-Z, from U+212A KELVIN SIGN (which gives k) and from U+0130
    (which gives i followed by U+0307); no other character has an ASCII
    letter in its lower-case form.  The other characters outside ASCII
    are kept as they are. *)
Fixpoint lower (s : string) : string :=
  match s with
  | EmptyString => EmptyString
  | String c1 r1 =>
      match r1 with
      | String c2 r2 =>
          if bytes2 c1 c2 196 176
          then String "i" (String "204" (String "135" (lower r2)))
          else
            match r2 with
            | String c3 r3 =>
                if bytes3 c1 c2 c3 226 132 170 then String "k" (lower r3)
                else String (lower_ascii c1) (lower r1)
            | EmptyString => String (lower_ascii c1) (lower r1)
            end
      | EmptyString => String (lower_ascii c1) EmptyString
      end
  end.

(** The characters for which [str.isspace()] holds; they are the ones
    [str.strip()] removes and [\s] matches.  In ASCII: U+0009 to U+000D,
    U+001C to U+001F and the space. *)
Definition isspace (c : ascii) : bool :=
  let n := nat_of_ascii c in
  ((9 <=? n)%nat && (n <=? 13)%nat) || ((28 <=? n)%nat && (n <=? 32)%nat).

(** In two bytes: U+0085 and U+00A0, the no-break space. *)
Definition isspace2 (a b : ascii) : bool :=
  bytes2 a b 194 133 || bytes2 a b 194 160.

(** In three bytes: U+1680, U+2000 to U+200A, U+2028, U+2029, U+202F,
    U+205F and U+3000. *)
Definition isspace3 (a b c : ascii) : bool :=
  bytes3 a b c 225 154 128
  || (bytes2 a b 226 128
      && (((128 <=? nat_of_ascii c)%nat && (nat_of_ascii c <=? 138)%nat)
          || (nat_of_ascii c =? 168)%nat || (nat_of_ascii c =? 169)%nat
          || (nat_of_ascii c =? 175)%nat))
  || bytes3 a b c 226 129 159
  || bytes3 a b c 227 128 128.

(** The string without the whitespace characters it starts with.  With
    [backwards] the bytes of every character are read in reverse order,
    as they stand in a reversed string. *)
Fixpoint skip_spaces (backwards : bool) (s : string) : string :=
  match s with
  | EmptyString => EmptyString
  | String c1 r1 =>
      if isspace c1 then skip_spaces backwards r1
      else
        match r1 with
        | String c2 r2 =>
            if (if backwards then isspace2 c2 c1 else isspace2 c1 c2)
            then skip_spaces backwards r2
            else
              match r2 with
              | String c3 r3 =>
                  if (if backwards then isspace3 c3 c2 c1 else isspace3 c1 c2 c3)
                  then skip_spaces backwards r3
                  else s
              | EmptyString => s
              end
        | EmptyString => s
        end
  end.

(** [c.isdigit()] and [\d] on one ASCII character. *)
Definition isdigit_ascii (c : ascii) : bool :=
  let n := nat_of_ascii c in (48 <=? n)%nat && (n <=? 57)%nat.

(** [s.lstrip()] *)
Definition lstrip (s : string) : string := skip_spaces false s.

(** Whether [s] starts with a whitespace character. *)
Definition starts_with_space (s : string) : bool :=
  negb (String.length (lstrip s) =? String.length s)%nat.

Fixpoint rev_string_onto (s acc : string) : string :=
  match s with
  | EmptyString => acc
  | String c r => rev_string_onto r (String c acc)
  end.

Definition rev_string (s : string) : string := rev_string_onto s EmptyString.

(** [s.rstrip()] *)
Definition rstrip (s : string) : string :=
  rev_string (skip_spaces true (rev_string s)).

(** [s.strip()] *)
Definition strip (s : string) : string := rstrip (lstrip s).

(** [s.startswith(p)] *)
Fixpoint startswith (p s : string) : bool :=
  match p, s with
  | EmptyString, _ => true
  | String a p', String b s' => Ascii.eqb a b && startswith p' s'
  | String _ _, EmptyString => false
  end.

(** [sub in s] *)
Fixpoint contains (sub s : string) : bool :=
  startswith sub s ||
  match s with
  | EmptyString => false
  | String _ r => contains sub r
  end.

(** [any(keyword in s for keyword in keywords)] *)
Definition any_in (keywords : list string) (s : string) : bool :=
  existsb (fun k => contains k s) keywords.

(** [s in (a, b, ...)] *)
Definition mem (s : string) (l : list string) : bool :=
  existsb (String.eqb s) l.

(** [s.isdigit()]: non-empty and made of digits only. *)
Fixpoint all_digits (s : string) : bool :=
  match s with
  | EmptyString => true
  | String c r => isdigit_ascii c && all_digits r
  end.

Definition isdigit (s : string) : bool :=
  match s with
  | EmptyString => false
  | _ => all_digits s
  end.

(** [s.replace(old, "")] for a non-empty [old]: left to right, without
    overlap.  [drop n s] is [s[n:]]. *)
Fixpoint drop (n : nat) (s : string) : string :=
  match n, s with
  | O, _ => s
  | S n', String _ r => drop n' r
  | S _, EmptyString => EmptyString
  end.

Fixpoint replace_go (fuel : nat) (old s : string) : string :=
  match fuel with
  | O => s
  | S fuel' =>
      match s with
      | EmptyString => EmptyString
      | String c r =>
          if startswith old s
          then replace_go fuel' old (drop (String.length old) s)
          else String c (replace_go fuel' old r)
      end
  end.

Definition remove_all (old s : string) : string :=
  match old with
  | EmptyString => s
  | _ => replace_go (S (String.length s)) old s
  end.

(** [str(n)] for a non-negative integer. *)
Definition str_of_nat (n : nat) : string :=
  NilZero.string_of_uint (Nat.to_uint n).

(** [sep.join(l)] *)
Fixpoint join (sep : string) (l : list string) : string :=
  match l with
  | [] => ""
  | [x] => x
  | x :: r => x +:+ sep +:+ join sep r
  end.

(** [d.get(key)] on a dict given by its items, in insertion order
    (the keys of a dict are pairwise distinct). *)
Fixpoint dict_get {V : Type} (d : list (string * V)) (key : string) : option V :=
  match d with
  | [] => None
  | (k, v) :: r => if String.eqb k key then Some v else dict_get r key
  end.

(** [d.values()] *)
Definition dict_values {V : Type} (d : list (string * V)) : list V := map snd d.

(** Exceptions raised by the modelled operations. *)
Inductive Exc :=
| ValueError (msg : string)
| TypeError (msg : string)
| AttributeError (msg : string)
| ParserError (msg : string).

(** [str(e)] *)
Definition str_of_exc (e : Exc) : string :=
  match e with
  | ValueError m | TypeError m | AttributeError m | ParserError m => m
  end.

(** [len(s) > 0], the truth value of a string. *)
Definition nonempty (s : string) : bool :=
  match s with
  | EmptyString => false
  | String _ _ => true
  end.

(** The elements of [l] after the first occurrence of [c]. *)
Fixpoint after (c : nat) (l : list nat) : list nat :=
  match l with
  | [] => []
  | x :: r => if Nat.eqb x c then r else after c r
  end.

(** The longest prefix of [l] whose elements satisfy [f]. *)
Fixpoint take_while {X : Type} (f : X -> bool) (l : list X) : list X :=
  match l with
  | [] => []
  | x :: r => if f x then x :: take_while f r else []
  end.

End Py.

(* ===================================================================== *)
(** * epub_repair/models.py                                               *)
(* ===================================================================== *)

(** Paths are kept as strings. *)
Abbreviation Path := string (only parsing).

Record SpineItem := mkSpineItem {
  idref : string;
  spine_href : Path          (* [href]: resolved absolute path *)
}.

Record ManifestItem := mkManifestItem {
  id : string;
  href : Path;               (* relative path from the EPUB root *)
  media_type : string
}.

Record EpubBook := mkEpubBook {
  root_path : Path;
  opf_path : Path;
  spine_items : list SpineItem;
  manifest_items : list (string * ManifestItem)   (* Dict[str, ManifestItem] *)
}.

(** [EpubBook.get_xhtml_files]: the loop appends to [xhtml_files]. *)
Definition get_xhtml_files (self : EpubBook) : list Path :=
  fold_left
    (fun xhtml_files spine_item =>
       match Py.dict_get (manifest_items self) (idref spine_item) with
       | Some manifest_item =>
           if String.eqb (media_type manifest_item) "application/xhtml+xml"
           then xhtml_files ++ [spine_href spine_item]
           else xhtml_files
       | None => xhtml_files
       end)
    (spine_items self) [].

(** The spine items that the claim selects. *)
Definition is_content_document (self : EpubBook) (s : SpineItem) : bool :=
  match Py.dict_get (manifest_items self) (idref s) with
  | Some m => String.eqb (media_type m) "application/xhtml+xml"
  | None => false
  end.

(** [get_css_files] and [resolve_path] go through [pathlib]; what the
    sources need from it is kept abstract. *)
Class PathOps := {
  path_parent : Path -> Path;                 (* [p.parent] *)
  path_join_resolve : Path -> string -> Path  (* [(p / href).resolve()] *)
}.

(* ===================================================================== *)
(** * epub_repair/reporting.py                                            *)
(* ===================================================================== *)

Record Change := mkChange {
  file : string;
  description : string;
  details : option (list (string * string))
}.

Record Reporter := mkReporter {
  counters : gmap string nat;
  changes : list Change
}.

(** [Reporter()] *)
Definition new_reporter : Reporter := mkReporter ∅ [].

(** [Reporter.increment] *)
Definition increment (self : Reporter) (category : string) (count : nat) : Reporter :=
  mkReporter
    (<[category := default 0 (counters self !! category) + count]> (counters self))
    (changes self).

(** [Reporter.log_change]; the rules never pass [details]. *)
Definition log_change (self : Reporter) (file_path : Path) (description : string) : Reporter :=
  mkReporter (counters self)
             (changes self ++ [mkChange file_path description None]).

(* ===================================================================== *)
(** * Stylesheets (epub_repair/css_processor.py)                          *)
(* ===================================================================== *)

(** Modelled from the documentation of the external stylesheet engine.
    [parse_css] returns what [tinycss2.parse_stylesheet] returns: a list of
    qualified rules, at-rules and parse errors.  The content of a rule is
    the list of its component values, not parsed any further: tokens
    (identifiers, literals such as [:] and [;], numbers, dimensions,
    strings, whitespace, comments, ...), function blocks and bracketed
    blocks.  A token has an attribute [value], a function block has
    [name] and [arguments], a bracketed block has [content]; no component
    value has both [name] and [value].  [value] below is [str(node.value)]:
    for a number or a dimension that is the text of the float, the unit
    is another attribute. *)
#[warnings="-register-all"]
Inductive ComponentValue :=
| Token (type : string) (value : string)
| FunctionBlock (name : string) (arguments : list ComponentValue)
| Block (type : string) (content : list ComponentValue)
| Other (type : string).                (* a unicode-range token, an error *)

(** [prelude] is [tinycss2.serialize(rule.prelude)].  An at-rule that ends
    with a semicolon, such as [@import], has [content = None]. *)
Inductive CssRule :=
| QualifiedRule (prelude : string) (content : list ComponentValue)
| AtRule (at_keyword : string) (prelude : string) (content : option (list ComponentValue))
| ParseError (kind : string) (message : string).

Definition Stylesheet := list CssRule.

(** [hasattr(rule, "prelude")] and the serialized prelude. *)
Definition prelude (rule : CssRule) : option string :=
  match rule with
  | QualifiedRule p _ | AtRule _ p _ => Some p
  | ParseError _ _ => None
  end.

(** [hasattr(rule, "content")] and [rule.content]: [None] when there is no
    such attribute, [Some None] when the attribute is [None]. *)
Definition content (rule : CssRule) : option (option (list ComponentValue)) :=
  match rule with
  | QualifiedRule _ c => Some (Some c)
  | AtRule _ _ c => Some c
  | ParseError _ _ => None
  end.

(** [rule.content = items] *)
Definition set_content (rule : CssRule) (items : list ComponentValue) : CssRule :=
  match rule with
  | QualifiedRule p _ => QualifiedRule p items
  | AtRule k p _ => AtRule k p (Some items)
  | ParseError _ _ => rule
  end.

(** [hasattr(decl, "name")] and [decl.name] *)
Definition decl_name (decl : ComponentValue) : option string :=
  match decl with
  | FunctionBlock name _ => Some name
  | _ => None
  end.

(** [str(decl.value)]; [None] stands for the [AttributeError]. *)
Definition decl_value (decl : ComponentValue) : option string :=
  match decl with
  | Token _ value => Some value
  | _ => None
  end.

(** [_get_selector_text]; the [except] gives the empty string. *)
Definition _get_selector_text (rule : CssRule) : string :=
  match prelude rule with
  | Some p => Py.strip p
  | None => ""
  end.

(** [_is_absolute_size]; an [AttributeError] is caught and gives [False]. *)
Definition _is_absolute_size (decl : ComponentValue) : bool :=
  match decl_value decl with
  | Some v =>
      let value_text := Py.lower v in
      Py.contains "px" value_text || Py.contains "pt" value_text
  | None => false
  end.

(** ** [float(value_text) < 1.2] on the strings that reach it

    The call is guarded by [value_text.replace(".", "").isdigit()], so the
    argument is made of digits and dots and holds a digit.  [float] raises
    [ValueError] on more than one dot; otherwise the string denotes
    [n / 10^k].  [float] rounds to the nearest double, ties to even; the
    double [1.2] is [5404319552844595 / 2^52], so the comparison holds
    exactly when [n / 10^k <= 10808639105689189 / 2^53], the midpoint
    below it. *)
Fixpoint digits_value (s : string) (acc : Z) : Z :=
  match s with
  | EmptyString => acc
  | String c r => digits_value r (10 * acc + (Z.of_nat (nat_of_ascii c) - 48))%Z
  end.

Fixpoint split_dot (s : string) : string * option string :=
  match s with
  | EmptyString => (EmptyString, None)
  | String c r =>
      if Ascii.eqb c "."%char then (EmptyString, Some r)
      else let '(a, b) := split_dot r in (String c a, b)
  end.

(** The decimal literal as numerator and number of fractional digits;
    [None] is [ValueError]. *)
Definition parse_decimal (s : string) : option (Z * nat) :=
  let '(int_part, frac) := split_dot s in
  let frac_part := default EmptyString frac in
  if Py.all_digits int_part && Py.all_digits frac_part
     && negb (String.eqb (int_part +:+ frac_part) "")
  then Some (digits_value (int_part +:+ frac_part) 0, String.length frac_part)
  else None.

Definition float_lt_1_2 (s : string) : option bool :=
  match parse_decimal s with
  | Some (n, k) => Some (n * 2 ^ 53 <=? 10808639105689189 * 10 ^ Z.of_nat k)%Z
  | None => None
  end.

(** [_is_fixed_line_height]; a [ValueError] from [float] is caught and
    gives [False]. *)
Definition _is_fixed_line_height (decl : ComponentValue) : bool :=
  match decl_value decl with
  | Some v =>
      let value_text := Py.lower v in
      if Py.contains "px" value_text then true
      else if Py.contains "pt" value_text then true
      else if Py.isdigit (Py.remove_all "." value_text)
           then default false (float_lt_1_2 value_text)
           else false
  | None => false
  end.

(** [_is_flex_or_grid] *)
Definition _is_flex_or_grid (decl : ComponentValue) : bool :=
  match decl_value decl with
  | Some v =>
      let value_text := Py.lower v in
      Py.contains "flex" value_text || Py.contains "grid" value_text
  | None => false
  end.

(** [hasattr(decl, "name") and decl.name == name] *)
Definition has_name (decl : ComponentValue) (name : string) : bool :=
  match decl_name decl with
  | Some n => String.eqb n name
  | None => false
  end.

(* ===================================================================== *)
(** * The element tree of lxml                                            *)
(* ===================================================================== *)

(** The rules hold references to elements while they detach, move and
    insert them, so the tree is an arena: an element reference is an index
    into the list of all elements ever created for the document, and every
    element records its parent and its children.  A detached element stays
    in the arena with [parent = None].  The tail text is a field of the
    element and therefore travels with it, as in lxml. *)
Module lxml.

Record Element := mkElement {
  tag : string;
  attrib : list (string * string);
  text : option string;
  tail : option string;
  parent : option nat;
  children : list nat
}.

Abbreviation Arena := (list Element) (only parsing).

Definition set_tag_ (v : string) (e : Element) : Element :=
  mkElement v (attrib e) (text e) (tail e) (parent e) (children e).
Definition set_attrib_ (v : list (string * string)) (e : Element) : Element :=
  mkElement (tag e) v (text e) (tail e) (parent e) (children e).
Definition set_text_ (v : option string) (e : Element) : Element :=
  mkElement (tag e) (attrib e) v (tail e) (parent e) (children e).
Definition set_tail_ (v : option string) (e : Element) : Element :=
  mkElement (tag e) (attrib e) (text e) v (parent e) (children e).
Definition set_parent_ (v : option nat) (e : Element) : Element :=
  mkElement (tag e) (attrib e) (text e) (tail e) v (children e).
Definition set_children_ (v : list nat) (e : Element) : Element :=
  mkElement (tag e) (attrib e) (text e) (tail e) (parent e) v.

(** ** Reading an element *)

(** [e.tag] *)
Definition get_tag (d : Arena) (e : nat) : string :=
  from_option tag "" (d !! e).
(** [e.text] *)
Definition get_text (d : Arena) (e : nat) : option string :=
  d !! e ≫= text.
(** [e.tail] *)
Definition get_tail (d : Arena) (e : nat) : option string :=
  d !! e ≫= tail.
(** [e.getparent()] *)
Definition getparent (d : Arena) (e : nat) : option nat :=
  d !! e ≫= parent.
(** [list(e)] *)
Definition get_children (d : Arena) (e : nat) : list nat :=
  from_option children [] (d !! e).
(** [len(e)] *)
Definition len (d : Arena) (e : nat) : nat := length (get_children d e).
(** [e.attrib.items()] *)
Definition get_attrib (d : Arena) (e : nat) : list (string * string) :=
  from_option attrib [] (d !! e).
(** [e.get(key, default)] *)
Definition get (d : Arena) (e : nat) (key default : string) : string :=
  from_option (fun v => v) default (Py.dict_get (get_attrib d e) key).
(** [key in e.attrib] *)
Definition has_attr (d : Arena) (e : nat) (key : string) : bool :=
  bool_decide (is_Some (Py.dict_get (get_attrib d e) key)).

(** The element after [c] in a list of siblings. *)
Fixpoint next_in (c : nat) (l : list nat) : option nat :=
  match l with
  | [] => None
  | x :: r => if Nat.eqb x c then head r else next_in c r
  end.

(** [e.getnext()] *)
Definition getnext (d : Arena) (e : nat) : option nat :=
  match getparent d e with
  | Some q => next_in e (get_children d q)
  | None => None
  end.

(** [child in q]: lxml compares the parent pointer of [child]. *)
Definition contains_child (d : Arena) (q child : nat) : bool :=
  bool_decide (getparent d child = Some q).

Fixpoint index_in (c : nat) (l : list nat) : option nat :=
  match l with
  | [] => None
  | x :: r => if Nat.eqb x c then Some 0 else S <$> index_in c r
  end.

(** ** Writing an element *)

(** [e.tag = v], [e.text = v], [e.tail = v] *)
Definition set_tag (d : Arena) (e : nat) (v : string) : Arena :=
  alter (set_tag_ v) e d.
Definition set_text (d : Arena) (e : nat) (v : option string) : Arena :=
  alter (set_text_ v) e d.
Definition set_tail (d : Arena) (e : nat) (v : option string) : Arena :=
  alter (set_tail_ v) e d.

(** An attribute dict keeps the position of a key that is set again. *)
Fixpoint dict_set (l : list (string * string)) (key v : string) : list (string * string) :=
  match l with
  | [] => [(key, v)]
  | (k, w) :: r => if String.eqb k key then (k, v) :: r else (k, w) :: dict_set r key v
  end.

Definition dict_pop (l : list (string * string)) (key : string) : list (string * string) :=
  List.filter (fun kv => negb (String.eqb (fst kv) key)) l.

(** [e.set(key, v)] *)
Definition set (d : Arena) (e : nat) (key v : string) : Arena :=
  alter (fun x => set_attrib_ (dict_set (attrib x) key v) x) e d.

(** [e.attrib.pop(key, None)] *)
Definition pop (d : Arena) (e : nat) (key : string) : Arena :=
  alter (fun x => set_attrib_ (dict_pop (attrib x) key) x) e d.

(** [etree.Element(tag)]: a fresh detached element. *)
Definition new_element (d : Arena) (t : string) : Arena * nat :=
  (d ++ [mkElement t [] None None None []], length d).

(** ** Moving elements *)

Definition without (c : nat) (l : list nat) : list nat :=
  List.filter (fun x => negb (Nat.eqb x c)) l.

(** Unlink [c] from its parent, if it has one. *)
Definition detach (d : Arena) (c : nat) : Arena :=
  match getparent d c with
  | Some q =>
      alter (set_parent_ None) c
        (alter (fun x => set_children_ (without c (children x)) x) q d)
  | None => d
  end.

(** [q.remove(c)] *)
Definition remove (d : Arena) (q c : nat) : Py.Exc + Arena :=
  if contains_child d q c then inr (detach d c)
  else inl (Py.ValueError "Element is not a child of this node.").

(** Link the parentless [c] under [q] with the new child list [kids]. *)
Definition attach (d : Arena) (q c : nat) (kids : list nat) : Arena :=
  alter (set_parent_ (Some q)) c (alter (set_children_ kids) q d).

(** [q.append(c)]: [c] leaves its old parent and becomes the last child
    of [q].  (lxml refuses to append an ancestor of [q]; the rules only
    append to elements they have just created.) *)
Definition append (d : Arena) (q c : nat) : Arena :=
  let d1 := detach d c in
  attach d1 q c (get_children d1 q ++ [c]).

Fixpoint insert_before (target c : nat) (l : list nat) : list nat :=
  match l with
  | [] => [c]
  | x :: r => if Nat.eqb x target then c :: x :: r else x :: insert_before target c r
  end.

(** [q.insert(index, c)] for [index >= 0]: before the child found at
    [index], or at the end when there is no such child. *)
Definition insert (d : Arena) (q : nat) (index : nat) (c : nat) : Arena :=
  match get_children d q !! index with
  | None => append d q c
  | Some target =>
      let d1 := detach d c in
      attach d1 q c (insert_before target c (get_children d1 q))
  end.

(** [q.index(c)] *)
Definition index (d : Arena) (q c : nat) : Py.Exc + nat :=
  match index_in c (get_children d q) with
  | Some i => inr i
  | None => inl (Py.ValueError "Element is not a child of this node.")
  end.

(** [q.replace(old, new)]: [old] leaves with its tail. *)
Definition replace (d : Arena) (q old new : nat) : Py.Exc + Arena :=
  if contains_child d q old then
    let d1 := detach d new in
    let kids := map (fun x => if Nat.eqb x old then new else x) (get_children d1 q) in
    inr (alter (set_parent_ None) old (attach d1 q new kids))
  else inl (Py.ValueError "Element is not a child of this node.").

(** [e.addprevious(c)]: [c] becomes the sibling just before [e]. *)
Definition addprevious (d : Arena) (e c : nat) : Py.Exc + Arena :=
  match getparent d e with
  | Some q =>
      let d1 := detach d c in
      inr (attach d1 q c (insert_before e c (get_children d1 q)))
  | None =>
      inl (Py.TypeError
             "Only processing instructions and comments can be siblings of the root element")
  end.

(** ** Document order *)

(** [e] and its descendants in document order.  The fuel bounds the
    depth; a tree stored in an arena of [n] elements is at most [n]
    levels deep. *)
Fixpoint iter (fuel : nat) (d : Arena) (e : nat) : list nat :=
  match fuel with
  | O => []
  | S fuel' => e :: flat_map (iter fuel' d) (get_children d e)
  end.

(** A parsed document: the arena and the root element ([tree]). *)
Record Document := mkDocument {
  arena : Arena;
  root : nat
}.

(** XPath [//*] *)
Definition all_elements (d : Arena) (root : nat) : list nat :=
  iter (length d) d root.

(** XPath [//name] *)
Definition xpath_tag (d : Arena) (root : nat) (name : string) : list nat :=
  List.filter (fun e => String.eqb (get_tag d e) name) (all_elements d root).

(** XPath [.//name] from the root: the root itself is not a candidate. *)
Definition xpath_descendant_tag (d : Arena) (root : nat) (name : string) : list nat :=
  List.filter (fun e => String.eqb (get_tag d e) name)
    (flat_map (iter (length d) d) (get_children d root)).

End lxml.

(* ===================================================================== *)
(** * Files, and the shape shared by the rules                            *)
(* ===================================================================== *)

(** The extracted EPUB directory.  A content document is kept as the tree
    that [parse_xhtml] returns for it and a stylesheet as the rule list
    that [parse_css] returns: the parser and the serializer are external
    collaborators, and writing a tree back and parsing it again is taken to
    give the same tree (the indentation added by the serializer is not
    modelled).  [written] records the calls of [write_text], oldest
    first. *)
Inductive FileContent :=
| XhtmlFile (doc : lxml.Document)
| CssFile (rules : Stylesheet).

Record World := mkWorld {
  files : gmap string FileContent;
  written : list Path
}.

(** [path.exists()] *)
Definition path_exists (w : World) (p : Path) : bool :=
  bool_decide (is_Some (files w !! p)).

(** [parse_xhtml(path)] *)
Definition parse_xhtml (w : World) (p : Path) : Py.Exc + lxml.Document :=
  match files w !! p with
  | Some (XhtmlFile doc) => inr doc
  | _ => inl (Py.ParserError "Document is empty")
  end.

(** [parse_css(path.read_text())] *)
Definition read_css (w : World) (p : Path) : Py.Exc + Stylesheet :=
  match files w !! p with
  | Some (CssFile rules) => inr rules
  | _ => inl (Py.ParserError "not a stylesheet")
  end.

(** [path.write_text(serialize(...))] *)
Definition write_file (w : World) (p : Path) (c : FileContent) : World :=
  mkWorld (<[p := c]> (files w)) (written w ++ [p]).

(** [EpubBook.resolve_path] *)
Definition resolve_path `{PathOps} (self : EpubBook) (w : World) (href : string) : Path :=
  let opf_parent := path_parent (opf_path self) in
  let resolved := path_join_resolve opf_parent href in
  if negb (path_exists w resolved)
  then path_join_resolve (root_path self) href
  else resolved.

(** [EpubBook.get_css_files] *)
Definition get_css_files `{PathOps} (self : EpubBook) (w : World) : list Path :=
  fold_left
    (fun css_files manifest_item =>
       if String.eqb (media_type manifest_item) "text/css"
       then css_files ++ [resolve_path self w (href manifest_item)]
       else css_files)
    (Py.dict_values (manifest_items self)) [].

(** ** The body of a [try] block

    The statements of a [try] block work on the parsed tree and on the
    local counters of the rule.  An exception leaves the block at once; the
    counters keep the value they had reached. *)
Definition M (L A : Type) : Type :=
  lxml.Arena * L -> (Py.Exc + A) * (lxml.Arena * L).

Definition ret {L A} (a : A) : M L A := fun s => (inr a, s).

Definition bind {L A B} (m : M L A) (k : A -> M L B) : M L B :=
  fun s =>
    match m s with
    | (inr a, s') => k a s'
    | (inl e, s') => (inl e, s')
    end.

Notation "x <-- m ;; k" := (bind m (fun x => k))
  (at level 100, m at next level, right associativity).
Notation "m ;;; k" := (bind m (fun _ => k))
  (at level 100, right associativity).

(** Read the tree. *)
Definition ask {L A} (f : lxml.Arena -> A) : M L A := fun s => (inr (f (fst s)), s).
(** A tree operation that cannot fail. *)
Definition tree_upd {L} (f : lxml.Arena -> lxml.Arena) : M L unit :=
  fun s => (inr tt, (f (fst s), snd s)).
(** A tree operation that may raise. *)
Definition tree_try {L} (f : lxml.Arena -> Py.Exc + lxml.Arena) : M L unit :=
  fun s =>
    match f (fst s) with
    | inr d' => (inr tt, (d', snd s))
    | inl e => (inl e, s)
    end.
(** A tree operation that returns a value, such as [etree.Element]. *)
Definition tree_new {L A} (f : lxml.Arena -> lxml.Arena * A) : M L A :=
  fun s => let '(d', a) := f (fst s) in (inr a, (d', snd s)).
(** Read and update the local variables. *)
Definition locals {L} : M L L := fun s => (inr (snd s), s).
Definition locals_upd {L} (f : L -> L) : M L unit :=
  fun s => (inr tt, (fst s, f (snd s))).

(** [for x in l: body] *)
Fixpoint for_each {L X} (l : list X) (body : X -> M L unit) : M L unit :=
  match l with
  | [] => ret tt
  | x :: r => body x ;;; for_each r body
  end.

(** [for i, x in enumerate(l): body], counting from [i]. *)
Fixpoint for_enumerate {L X} (i : nat) (l : list X) (body : nat -> X -> M L unit) : M L unit :=
  match l with
  | [] => ret tt
  | x :: r => body i x ;;; for_enumerate (S i) r body
  end.

(** [when c: m] *)
Definition when {L} (c : bool) (m : M L unit) : M L unit :=
  if c then m else ret tt.

(** Truthiness of an optional string: [if s:] *)
Definition truthy (s : option string) : bool :=
  match s with
  | Some (String _ _) => true
  | _ => false
  end.

(** [s or ""] *)
Definition or_empty (s : option string) : string := default "" s.

(* ===================================================================== *)
(** * epub_repair/rules/headings.py                                       *)
(* ===================================================================== *)

(** [_determine_heading_level] *)
Definition _determine_heading_level (d : lxml.Arena) (element : nat) : nat :=
  let classes := Py.lower (lxml.get d element "class" "") in
  if Py.contains "heading1" classes || Py.contains "h1" classes || Py.contains "title" classes
  then 1
  else if Py.contains "heading2" classes || Py.contains "h2" classes || Py.contains "chapter" classes
  then 2
  else if Py.contains "heading3" classes || Py.contains "h3" classes || Py.contains "section" classes
  then 3
  else 2.

(** One turn of [for child in element:] in [_convert_to_heading].  lxml
    fetches the next sibling before it hands out a child, so moving the
    child away does not disturb the iteration: the loop runs over the
    children the element had at the start. *)
Definition move_child_to_heading (heading : nat) (d : lxml.Arena) (child : nat) : lxml.Arena :=
  let d1 := lxml.append d heading child in
  if truthy (lxml.get_tail d1 child) then
    if (0 <? lxml.len d1 heading)%nat then
      match last (lxml.get_children d1 heading) with
      | Some l =>
          lxml.set_tail d1 l
            (Some (or_empty (lxml.get_tail d1 l) +:+ or_empty (lxml.get_tail d1 child)))
      | None => d1
      end
    else
      lxml.set_text d1 heading
        (Some (or_empty (lxml.get_text d1 heading) +:+ or_empty (lxml.get_tail d1 child)))
  else d1.

(** One turn of [for attr, value in element.attrib.items():] *)
Definition copy_attribute (heading : nat) (d : lxml.Arena) (item : string * string) : lxml.Arena :=
  let '(attr, value) := item in
  if negb (String.eqb attr "class") || negb (Py.contains "heading" (Py.lower value))
  then lxml.set d heading attr value
  else d.

(** [_convert_to_heading] *)
Definition _convert_to_heading (d : lxml.Arena) (element level : nat) : Py.Exc + lxml.Arena :=
  let tag := "h" +:+ Py.str_of_nat level in
  let '(d1, heading) := lxml.new_element d tag in
  let d2 :=
    if truthy (lxml.get_text d1 element)
    then lxml.set_text d1 heading (lxml.get_text d1 element)
    else d1 in
  let d3 := fold_left (move_child_to_heading heading) (lxml.get_children d2 element) d2 in
  let d4 := fold_left (copy_attribute heading) (lxml.get_attrib d3 element) d3 in
  match lxml.getparent d4 element with
  | Some parent => lxml.replace d4 parent element heading
  | None => inr d4
  end.

Record HeadingsLocals := mkHeadingsLocals {
  converted_count : nat;
  nesting_fixes : nat
}.

(** XPath [//p[contains(@class, 'keyword')]] *)
Definition xpath_p_class_contains (d : lxml.Arena) (root : nat) (keyword : string) : list nat :=
  List.filter (fun e => Py.contains keyword (lxml.get d e "class" ""))
    (lxml.xpath_tag d root "p").

(** Whether some proper ancestor of [e] has the given tag. *)
Fixpoint has_ancestor (fuel : nat) (d : lxml.Arena) (e : nat) (name : string) : bool :=
  match fuel with
  | O => false
  | S fuel' =>
      match lxml.getparent d e with
      | Some q => String.eqb (lxml.get_tag d q) name || has_ancestor fuel' d q name
      | None => false
      end
  end.

(** XPath [//p//h1 | //p//h2 | //p//h3 | //p//h4 | //p//h5 | //p//h6] *)
Definition xpath_nested_headings (d : lxml.Arena) (root : nat) : list nat :=
  List.filter
    (fun e => Py.mem (lxml.get_tag d e) ["h1"; "h2"; "h3"; "h4"; "h5"; "h6"]
              && has_ancestor (length d) d e "p")
    (lxml.all_elements d root).

Definition fake_heading_patterns : list string :=
  ["heading"; "chapter"; "section"; "title"].

(** The first loop of the [try] block: one XPath query per pattern, each
    evaluated on the tree as the earlier conversions left it. *)
Definition convert_fake_headings (root : nat) : M HeadingsLocals unit :=
  for_each fake_heading_patterns (fun pattern =>
    fake_headings <-- ask (fun d => xpath_p_class_contains d root pattern) ;;
    for_each fake_headings (fun p_elem =>
      level <-- ask (fun d => _determine_heading_level d p_elem) ;;
      when (negb (level =? 0)%nat)
        (tree_try (fun d => _convert_to_heading d p_elem level) ;;;
         locals_upd (fun l => mkHeadingsLocals (S (converted_count l)) (nesting_fixes l))))).

(** The second loop: headings nested in paragraphs. *)
Definition fix_nested_headings (root : nat) : M HeadingsLocals unit :=
  nested_headings <-- ask (fun d => xpath_nested_headings d root) ;;
  for_each nested_headings (fun heading =>
    parent <-- ask (fun d => lxml.getparent d heading) ;;
    match parent with
    | Some parent =>
        tag <-- ask (fun d => lxml.get_tag d parent) ;;
        when (String.eqb tag "p")
          (tree_try (fun d => lxml.addprevious d parent heading) ;;;
           empty <-- ask (fun d => negb (truthy (lxml.get_text d parent))
                                   && (lxml.len d parent =? 0)%nat) ;;
           when empty
             (grandparent <-- ask (fun d => lxml.getparent d parent) ;;
              match grandparent with
              | Some g => tree_try (fun d => lxml.remove d g parent)
              | None => fun s =>
                  (inl (Py.AttributeError "'NoneType' object has no attribute 'remove'"), s)
              end) ;;;
           locals_upd (fun l => mkHeadingsLocals (converted_count l) (S (nesting_fixes l))))
    | None => ret tt
    end).

(** The statements of the [try] block up to the write-back test. *)
Definition headings_body (root : nat) : M HeadingsLocals unit :=
  convert_fake_headings root ;;; fix_nested_headings root.

(** One turn of [for xhtml_path in book.get_xhtml_files():] *)
Definition headings_file (st : World * Reporter * HeadingsLocals) (xhtml_path : Path)
  : World * Reporter * HeadingsLocals :=
  let '(w, reporter, l) := st in
  if negb (path_exists w xhtml_path) then
    (w, log_change reporter xhtml_path "File not found, skipping", l)
  else
    match parse_xhtml w xhtml_path with
    | inl e => (w, log_change reporter xhtml_path ("Error processing: " +:+ Py.str_of_exc e), l)
    | inr doc =>
        match headings_body (lxml.root doc) (lxml.arena doc, l) with
        | (inr _, (tree, l')) =>
            if (0 <? converted_count l')%nat || (0 <? nesting_fixes l')%nat then
              (write_file w xhtml_path (XhtmlFile (lxml.mkDocument tree (lxml.root doc))),
               log_change reporter xhtml_path
                 ("Converted " +:+ Py.str_of_nat (converted_count l')
                  +:+ " fake headings, fixed " +:+ Py.str_of_nat (nesting_fixes l')
                  +:+ " nesting issues"),
               l')
            else (w, reporter, l')
        | (inl e, (_, l')) =>
            (w, log_change reporter xhtml_path ("Error processing: " +:+ Py.str_of_exc e), l')
        end
    end.

(** [normalize_headings] *)
Definition normalize_headings (book : EpubBook) (st : World * Reporter) : World * Reporter :=
  let '(w, reporter) := st in
  let '(w', reporter', l) :=
    fold_left headings_file (get_xhtml_files book) (w, reporter, mkHeadingsLocals 0 0) in
  (w',
   increment (increment reporter' "headings.converted_fake_headings" (converted_count l))
             "headings.fixed_nesting" (nesting_fixes l)).

(* ===================================================================== *)
(** * epub_repair/rules/paragraphs.py                                     *)
(* ===================================================================== *)

Record ParagraphsLocals := mkParagraphsLocals {
  divs_converted : nat;
  br_removed : nat;
  paragraphs_changed : bool
}.

Definition has_child_tagged (d : lxml.Arena) (e : nat) (names : list string) : bool :=
  existsb (fun c => Py.mem (lxml.get_tag d c) names) (lxml.get_children d e).

(** XPath [text()] as a predicate: the element has a text node among its
    children, which is its own text or the tail of one of its children. *)
Definition has_text_node (d : lxml.Arena) (e : nat) : bool :=
  truthy (lxml.get_text d e)
  || existsb (fun c => truthy (lxml.get_tail d c)) (lxml.get_children d e).

(** XPath [//div[not(div) and not(p) and (text() or span or em or strong)]] *)
Definition xpath_inline_divs (d : lxml.Arena) (root : nat) : list nat :=
  List.filter
    (fun e => negb (has_child_tagged d e ["div"])
              && negb (has_child_tagged d e ["p"])
              && (has_text_node d e || has_child_tagged d e ["span"]
                  || has_child_tagged d e ["em"] || has_child_tagged d e ["strong"]))
    (lxml.xpath_tag d root "div").

(** The siblings before [c] in a list of children. *)
Fixpoint before (c : nat) (l : list nat) : list nat :=
  match l with
  | [] => []
  | x :: r => if Nat.eqb x c then [] else x :: before c r
  end.

Definition is_tagged (d : lxml.Arena) (name : string) (e : nat) : bool :=
  String.eqb (lxml.get_tag d e) name.

(** XPath [//br/following-sibling::br]: the [br] elements that have a
    [br] among their preceding siblings. *)
Definition xpath_br_after_br (d : lxml.Arena) (root : nat) : list nat :=
  List.filter
    (fun e =>
       match lxml.getparent d e with
       | Some q => existsb (is_tagged d "br") (before e (lxml.get_children d q))
       | None => false
       end)
    (lxml.xpath_tag d root "br").

(** XPath [//p/br[last()]]: for every [p], the last of its [br] children. *)
Definition xpath_last_br_of_p (d : lxml.Arena) (root : nat) : list nat :=
  List.filter
    (fun e =>
       match lxml.getparent d e with
       | Some q =>
           is_tagged d "p" q
           && negb (existsb (is_tagged d "br") (Py.after e (lxml.get_children d q)))
       | None => false
       end)
    (lxml.xpath_tag d root "br").

(** [for br in ...: parent = br.getparent(); if parent is not None: ...] *)
Definition remove_brs (brs : list nat) : M ParagraphsLocals unit :=
  for_each brs (fun br =>
    parent <-- ask (fun d => lxml.getparent d br) ;;
    match parent with
    | Some parent =>
        tree_try (fun d => lxml.remove d parent br) ;;;
        locals_upd (fun l => mkParagraphsLocals (divs_converted l) (S (br_removed l)) true)
    | None => ret tt
    end).

Definition paragraphs_body (root : nat) : M ParagraphsLocals unit :=
  divs <-- ask (fun d => xpath_inline_divs d root) ;;
  for_each divs (fun div =>
    tree_upd (fun d => lxml.set_tag d div "p") ;;;
    locals_upd (fun l => mkParagraphsLocals (S (divs_converted l)) (br_removed l) true)) ;;;
  br_sequences <-- ask (fun d => xpath_br_after_br d root) ;;
  remove_brs br_sequences ;;;
  trailing_brs <-- ask (fun d => xpath_last_br_of_p d root) ;;
  remove_brs trailing_brs.

(** One turn of [for xhtml_path in book.get_xhtml_files():]; [changed]
    starts at [False] for every file, the counters do not. *)
Definition paragraphs_file (st : World * Reporter * ParagraphsLocals) (xhtml_path : Path)
  : World * Reporter * ParagraphsLocals :=
  let '(w, reporter, l) := st in
  if negb (path_exists w xhtml_path) then st
  else
    match parse_xhtml w xhtml_path with
    | inl e => (w, log_change reporter xhtml_path ("Error processing: " +:+ Py.str_of_exc e), l)
    | inr doc =>
        match paragraphs_body (lxml.root doc)
                (lxml.arena doc, mkParagraphsLocals (divs_converted l) (br_removed l) false) with
        | (inr _, (tree, l')) =>
            if paragraphs_changed l' then
              (write_file w xhtml_path (XhtmlFile (lxml.mkDocument tree (lxml.root doc))),
               log_change reporter xhtml_path
                 ("Converted " +:+ Py.str_of_nat (divs_converted l')
                  +:+ " divs, removed " +:+ Py.str_of_nat (br_removed l') +:+ " <br/> tags"),
               l')
            else (w, reporter, l')
        | (inl e, (_, l')) =>
            (w, log_change reporter xhtml_path ("Error processing: " +:+ Py.str_of_exc e), l')
        end
    end.

(** [normalize_paragraphs_and_indents] *)
Definition normalize_paragraphs_and_indents (book : EpubBook) (st : World * Reporter)
  : World * Reporter :=
  let '(w, reporter) := st in
  let '(w', reporter', l) :=
    fold_left paragraphs_file (get_xhtml_files book) (w, reporter, mkParagraphsLocals 0 0 false) in
  (w',
   increment (increment reporter' "paragraphs.converted_divs" (divs_converted l))
             "paragraphs.removed_br_breaks" (br_removed l)).

(* ===================================================================== *)
(** * epub_repair/rules/images.py                                         *)
(* ===================================================================== *)

Record ImagesLocals := mkImagesLocals {
  alt_added : nat;
  images_changed : bool
}.

Definition images_body (root : nat) : M ImagesLocals unit :=
  images <-- ask (fun d => lxml.xpath_tag d root "img") ;;
  for_each images (fun img =>
    has_alt <-- ask (fun d => lxml.has_attr d img "alt") ;;
    when (negb has_alt)
      (tree_upd (fun d => lxml.set d img "alt" "") ;;;
       locals_upd (fun l => mkImagesLocals (S (alt_added l)) true))).

Definition images_file (st : World * Reporter * ImagesLocals) (xhtml_path : Path)
  : World * Reporter * ImagesLocals :=
  let '(w, reporter, l) := st in
  if negb (path_exists w xhtml_path) then st
  else
    match parse_xhtml w xhtml_path with
    | inl e => (w, log_change reporter xhtml_path ("Error processing: " +:+ Py.str_of_exc e), l)
    | inr doc =>
        match images_body (lxml.root doc) (lxml.arena doc, mkImagesLocals (alt_added l) false) with
        | (inr _, (tree, l')) =>
            if images_changed l' then
              (write_file w xhtml_path (XhtmlFile (lxml.mkDocument tree (lxml.root doc))),
               log_change reporter xhtml_path
                 ("Added " +:+ Py.str_of_nat (alt_added l') +:+ " alt attributes"),
               l')
            else (w, reporter, l')
        | (inl e, (_, l')) =>
            (w, log_change reporter xhtml_path ("Error processing: " +:+ Py.str_of_exc e), l')
        end
    end.

(** [normalize_images] *)
Definition normalize_images (book : EpubBook) (st : World * Reporter) : World * Reporter :=
  let '(w, reporter) := st in
  let '(w', reporter', l) :=
    fold_left images_file (get_xhtml_files book) (w, reporter, mkImagesLocals 0 false) in
  (w', increment reporter' "images.added_alt" (alt_added l)).

(* ===================================================================== *)
(** * epub_repair/rules/lists.py                                          *)
(* ===================================================================== *)

(** The bullet character U+2022 in UTF-8. *)
Definition bullet : string :=
  String "226"%char (String "128"%char (String "162"%char EmptyString)).

(** After a marker: [\s+] must match; what is left after it is returned. *)
Definition after_spaces (rest : string) : option string :=
  if Py.starts_with_space rest then Some (Py.lstrip rest) else None.

(** [re.compile(r'^[-•*]\s+')]: [Some rest] when the pattern matches at the
    start of [text], [rest] being the text after the match. *)
Definition unordered_pattern (text : string) : option string :=
  if Py.startswith "-" text || Py.startswith "*" text then after_spaces (Py.drop 1 text)
  else if Py.startswith bullet text then after_spaces (Py.drop 3 text)
  else None.

Fixpoint skip_digits (s : string) : string :=
  match s with
  | String c r => if Py.isdigit_ascii c then skip_digits r else s
  | EmptyString => EmptyString
  end.

(** [re.compile(r'^\d+\.\s+')] *)
Definition ordered_pattern (text : string) : option string :=
  match text with
  | String c _ =>
      if Py.isdigit_ascii c then
        match skip_digits text with
        | String "."%char rest => after_spaces rest
        | _ => None
        end
      else None
  | EmptyString => None
  end.

(** [bool(pattern.match(text))] *)
Definition matches (pattern : string -> option string) (text : string) : bool :=
  bool_decide (is_Some (pattern text)).

(** [re.sub(pattern, '', text)] for a pattern anchored at the start. *)
Definition sub_prefix (pattern : string -> option string) (text : string) : string :=
  default text (pattern text).

Record ListsLocals := mkListsLocals {
  lists_created : nat
}.

(** The inner [while j < len(paragraphs):] loop, run on [paragraphs[i:]]:
    it only reads the tree. *)
Fixpoint collect_list_items (d : lxml.Arena) (is_unordered is_ordered : bool)
    (rest : list nat) : list (nat * bool) :=
  match rest with
  | [] => []
  | p_item :: rest' =>
      let text_item := Py.strip (or_empty (lxml.get_text d p_item)) in
      if is_unordered && matches unordered_pattern text_item
      then (p_item, false) :: collect_list_items d is_unordered is_ordered rest'
      else if is_ordered && matches ordered_pattern text_item
      then (p_item, true) :: collect_list_items d is_unordered is_ordered rest'
      else []
  end.

(** One turn of [for p_elem, was_ordered in list_items:] *)
Definition convert_list_item (list_elem : nat) (item : nat * bool) : M ListsLocals unit :=
  let '(p_elem, was_ordered) := item in
  li <-- tree_new (fun d => lxml.new_element d "li") ;;
  text_content <-- ask (fun d => Py.strip (or_empty (lxml.get_text d p_elem))) ;;
  let text_content :=
    if was_ordered then sub_prefix ordered_pattern text_content
    else sub_prefix unordered_pattern text_content in
  tree_upd (fun d => lxml.set_text d li (Some text_content)) ;;;
  kids <-- ask (fun d => lxml.get_children d p_elem) ;;
  for_each kids (fun child => tree_upd (fun d => lxml.append d li child)) ;;;
  tree_upd (fun d => lxml.append d list_elem li) ;;;
  parent <-- ask (fun d => lxml.getparent d p_elem) ;;
  match parent with
  | Some parent => tree_try (fun d => lxml.remove d parent p_elem)
  | None => ret tt
  end.

(** The statements under [if list_items:]. *)
Definition build_list (is_ordered : bool) (list_items : list (nat * bool)) : M ListsLocals unit :=
  let list_tag := if is_ordered then "ol" else "ul" in
  list_elem <-- tree_new (fun d => lxml.new_element d list_tag) ;;
  for_each list_items (convert_list_item list_elem) ;;;
  match list_items with
  | (first_p, _) :: _ =>
      parent <-- ask (fun d => lxml.getparent d first_p) ;;
      match parent with
      | Some parent =>
          in_parent <-- ask (fun d => lxml.contains_child d parent first_p) ;;
          (if in_parent
           then
             tree_try (fun d =>
               match lxml.index d parent first_p with
               | inr i => inr (lxml.insert d parent i list_elem)
               | inl e => inl e
               end)
           else
             tree_upd (fun d => lxml.insert d parent (lxml.len d parent) list_elem))
      | None => ret tt
      end
  | [] => ret tt
  end ;;;
  locals_upd (fun l => mkListsLocals (S (lists_created l))).

(** The outer [while i < len(paragraphs):] loop, run on [paragraphs[i:]].
    [skip] is the number of leading paragraphs that the jump [i = j] of an
    earlier turn has already passed. *)
Fixpoint lists_scan (rest : list nat) (skip : nat) : M ListsLocals unit :=
  match rest with
  | [] => ret tt
  | p :: rest' =>
      match skip with
      | S skip' => lists_scan rest' skip'
      | O =>
          text <-- ask (fun d => Py.strip (or_empty (lxml.get_text d p))) ;;
          let is_unordered := matches unordered_pattern text in
          let is_ordered := matches ordered_pattern text in
          if is_unordered || is_ordered then
            list_items <-- ask (fun d => collect_list_items d is_unordered is_ordered rest) ;;
            match list_items with
            | _ :: _ =>
                build_list is_ordered list_items ;;;
                lists_scan rest' (length list_items - 1)
            | [] => lists_scan rest' 0
            end
          else lists_scan rest' 0
      end
  end.

Definition lists_body (root : nat) : M ListsLocals unit :=
  paragraphs <-- ask (fun d => lxml.xpath_descendant_tag d root "p") ;;
  lists_scan paragraphs 0.

(** One turn of [for xhtml_path in book.get_xhtml_files():] *)
Definition lists_file (st : World * Reporter * ListsLocals) (xhtml_path : Path)
  : World * Reporter * ListsLocals :=
  let '(w, reporter, l) := st in
  if negb (path_exists w xhtml_path) then st
  else
    match parse_xhtml w xhtml_path with
    | inl e => (w, log_change reporter xhtml_path ("Error processing: " +:+ Py.str_of_exc e), l)
    | inr doc =>
        match lists_body (lxml.root doc) (lxml.arena doc, l) with
        | (inr _, (tree, l')) =>
            if (0 <? lists_created l')%nat then
              (write_file w xhtml_path (XhtmlFile (lxml.mkDocument tree (lxml.root doc))),
               log_change reporter xhtml_path
                 ("Created " +:+ Py.str_of_nat (lists_created l') +:+ " semantic lists"),
               l')
            else (w, reporter, l')
        | (inl e, (_, l')) =>
            (w, log_change reporter xhtml_path ("Error processing: " +:+ Py.str_of_exc e), l')
        end
    end.

(** [normalize_lists] *)
Definition normalize_lists (book : EpubBook) (st : World * Reporter) : World * Reporter :=
  let '(w, reporter) := st in
  let '(w', reporter', l) :=
    fold_left lists_file (get_xhtml_files book) (w, reporter, mkListsLocals 0) in
  (w', increment reporter' "lists.converted_paragraphs" (lists_created l)).

(* ===================================================================== *)
(** * epub_repair/rules/breaks.py                                         *)
(* ===================================================================== *)

Record BreaksLocals := mkBreaksLocals {
  scene_breaks_created : nat;
  page_breaks_removed : nat;
  breaks_changed : bool
}.

(** [not text and len(p) == 0] with [text = (p.text or "").strip()] *)
Definition is_empty_paragraph (d : lxml.Arena) (p : nat) : bool :=
  let text := Py.strip (or_empty (lxml.get_text d p)) in
  negb (Py.nonempty text) && (lxml.len d p =? 0)%nat.

(** The [if / elif / elif] that sets [is_page_break]. *)
Definition is_page_break (d : lxml.Arena) (p : nat) : bool :=
  if is_empty_paragraph d p then true
  else if Py.mem (Py.lower (lxml.get d p "class" "")) ["page-break"; "pagebreak"; "break"]
  then true
  else if Py.contains "page-break" (Py.lower (lxml.get d p "style" ""))
          || Py.contains "pagebreak" (Py.lower (lxml.get d p "style" ""))
  then true
  else false.

(** [next_sibling is not None and next_sibling.tag in ("h1", "h2")] *)
Definition is_h1_h2 (d : lxml.Arena) (next_sibling : option nat) : bool :=
  match next_sibling with
  | Some n => Py.mem (lxml.get_tag d n) ["h1"; "h2"]
  | None => false
  end.

(** [any(keyword in heading_text for keyword in ["chapter", "part", "book"])]
    with [heading_text = (e.text or "").strip().lower()] *)
Definition has_chapter_keyword (d : lxml.Arena) (e : nat) : bool :=
  let heading_text := Py.lower (Py.strip (or_empty (lxml.get_text d e))) in
  Py.any_in ["chapter"; "part"; "book"] heading_text.

(** The value of [is_before_chapter] for the paragraph [p] found at
    position [i] of [tree.xpath("//p")]. *)
Definition is_before_chapter (d : lxml.Arena) (i : nat) (p : nat) : bool :=
  let next_sibling := lxml.getnext d p in
  let is_before_chapter :=
    match next_sibling with
    | Some n =>
        if Py.mem (lxml.get_tag d n) ["h1"; "h2"] then
          if has_chapter_keyword d n then true
          else if (i <? 3)%nat then true
          else false
        else false
    | None => false
    end in
  if negb is_before_chapter then
    match lxml.getparent d p with
    | Some parent =>
        let body_children := lxml.get_children d parent in
        match lxml.index_in p body_children with
        | Some p_index =>
            if (p_index <? 3)%nat && is_h1_h2 d next_sibling then true else false
        | None => false
        end
    | None => false
    end
  else true.

(** [for i, p in enumerate(paragraphs):], which fills
    [paragraphs_to_remove]; the loop only reads the tree. *)
Fixpoint collect_page_breaks (d : lxml.Arena) (i : nat) (paragraphs : list nat) : list nat :=
  match paragraphs with
  | [] => []
  | p :: rest =>
      if is_page_break d p && negb (is_before_chapter d i p)
      then p :: collect_page_breaks d (S i) rest
      else collect_page_breaks d (S i) rest
  end.

(** [for p in paragraphs_to_remove:] *)
Definition remove_page_breaks (paragraphs_to_remove : list nat) : M BreaksLocals unit :=
  for_each paragraphs_to_remove (fun p =>
    parent <-- ask (fun d => lxml.getparent d p) ;;
    match parent with
    | Some parent =>
        tree_try (fun d => lxml.remove d parent p) ;;;
        locals_upd (fun l =>
          mkBreaksLocals (scene_breaks_created l) (S (page_breaks_removed l)) true)
    | None => ret tt
    end).

(** Lines 29-84: find the page breaks and remove them. *)
Definition page_break_pass (root : nat) : M BreaksLocals unit :=
  paragraphs <-- ask (fun d => lxml.xpath_tag d root "p") ;;
  paragraphs_to_remove <-- ask (fun d => collect_page_breaks d 0 paragraphs) ;;
  remove_page_breaks paragraphs_to_remove.

(** [etree.Element("hr")] followed by [hr.set("class", "scene-break")] *)
Definition new_scene_break (d : lxml.Arena) : lxml.Arena * nat :=
  let '(d1, hr) := lxml.new_element d "hr" in
  (lxml.set d1 hr "class" "scene-break", hr).

(** The statements under [if empty_count >= 2:]; [run] is
    [paragraphs[start_idx : start_idx + empty_count]]. *)
Definition replace_empty_run (start_idx : nat) (run : list nat) : M BreaksLocals unit :=
  hr <-- tree_new new_scene_break ;;
  parent <-- ask (fun d => from_option (lxml.getparent d) None (head run)) ;;
  match parent with
  | Some parent =>
      for_each run (fun p => tree_try (fun d => lxml.remove d parent p)) ;;;
      tree_upd (fun d => lxml.insert d parent start_idx hr) ;;;
      locals_upd (fun l =>
        mkBreaksLocals (S (scene_breaks_created l)) (page_breaks_removed l) true)
  | None => ret tt
  end.

(** The [while i < len(paragraphs):] loop of the scene-break search, run
    on [paragraphs[i:]] with [i = start_idx]; [skip] counts the leading
    paragraphs that an earlier turn has passed. *)
Fixpoint scene_scan (rest : list nat) (start_idx : nat) (skip : nat) : M BreaksLocals unit :=
  match rest with
  | [] => ret tt
  | _ :: rest' =>
      match skip with
      | S skip' => scene_scan rest' (S start_idx) skip'
      | O =>
          run <-- ask (fun d => Py.take_while (is_empty_paragraph d) rest) ;;
          let empty_count := length run in
          when (2 <=? empty_count)%nat (replace_empty_run start_idx run) ;;;
          scene_scan rest' (S start_idx) empty_count
      end
  end.

Definition scene_break_pass (root : nat) : M BreaksLocals unit :=
  paragraphs <-- ask (fun d => lxml.xpath_tag d root "p") ;;
  scene_scan paragraphs 0 0.

(** XPath [//br[count(following-sibling::br) >= 2]] *)
Definition xpath_br_sequences (d : lxml.Arena) (root : nat) : list nat :=
  List.filter
    (fun e =>
       match lxml.getparent d e with
       | Some q =>
           (2 <=? length (List.filter (is_tagged d "br")
                            (Py.after e (lxml.get_children d q))))%nat
       | None => false
       end)
    (lxml.xpath_tag d root "br").

(** [for _ in range(n): next_br = e.getnext(); if next_br is not None and
    next_br.tag == "br": parent.remove(next_br)] *)
Fixpoint remove_next_brs (n : nat) (parent e : nat) : M BreaksLocals unit :=
  match n with
  | O => ret tt
  | S n' =>
      next_br <-- ask (fun d => lxml.getnext d e) ;;
      match next_br with
      | Some b =>
          is_br <-- ask (fun d => is_tagged d "br" b) ;;
          when is_br (tree_try (fun d => lxml.remove d parent b))
      | None => ret tt
      end ;;;
      remove_next_brs n' parent e
  end.

(** One turn of [for br in br_sequences:] *)
Definition handle_br_sequence (br : nat) : M BreaksLocals unit :=
  parent <-- ask (fun d => lxml.getparent d br) ;;
  match parent with
  | Some parent =>
      (* the [while] loop walks over the [br] siblings that follow directly *)
      br_count <-- ask (fun d =>
        1 + length (Py.take_while (is_tagged d "br")
                      (Py.after br (lxml.get_children d parent)))) ;;
      is_before_chapter <-- ask (fun d =>
        match lxml.getnext d br with
        | Some next_elem =>
            Py.mem (lxml.get_tag d next_elem) ["h1"; "h2"] && has_chapter_keyword d next_elem
        | None => false
        end) ;;
      if (3 <=? br_count)%nat && negb is_before_chapter then
        hr <-- tree_new new_scene_break ;;
        tree_try (fun d => lxml.replace d parent br hr) ;;;
        remove_next_brs (br_count - 1) parent hr ;;;
        locals_upd (fun l =>
          mkBreaksLocals (S (scene_breaks_created l)) (page_breaks_removed l) true)
      else if (3 <=? br_count)%nat && is_before_chapter then
        remove_next_brs (br_count - 1) parent br ;;;
        locals_upd (fun l =>
          mkBreaksLocals (scene_breaks_created l)
                         (page_breaks_removed l + (br_count - 1)) true)
      else ret tt
  | None => ret tt
  end.

Definition br_pass (root : nat) : M BreaksLocals unit :=
  br_sequences <-- ask (fun d => xpath_br_sequences d root) ;;
  for_each br_sequences handle_br_sequence.

(** XPath [//*[contains(@style, 'page-break') or contains(@style, 'pagebreak')]] *)
Definition xpath_styled_page_breaks (d : lxml.Arena) (root : nat) : list nat :=
  List.filter
    (fun e => Py.contains "page-break" (lxml.get d e "style" "")
              || Py.contains "pagebreak" (lxml.get d e "style" ""))
    (lxml.all_elements d root).

(** The chain of [style.replace(..., "")] calls. *)
Definition strip_page_break_style (style : string) : string :=
  fold_left (fun s old => Py.remove_all old s)
    ["page-break-before: always;"; "page-break-after: always;";
     "page-break-before:always;"; "page-break-after:always;";
     "pagebreak: always;"; "pagebreak:always;"]
    style.

(** One turn of [for elem in elements_with_page_break:] *)
Definition strip_style (elem : nat) : M BreaksLocals unit :=
  is_before_chapter <-- ask (fun d =>
    match lxml.getnext d elem with
    | Some next_sibling =>
        Py.mem (lxml.get_tag d next_sibling) ["h1"; "h2"]
        && has_chapter_keyword d next_sibling
    | None => false
    end) ;;
  when (negb is_before_chapter)
    (style <-- ask (fun d => lxml.get d elem "style" "") ;;
     let new_style := strip_page_break_style style in
     when (negb (String.eqb new_style style))
       (tree_upd (fun d =>
          if Py.nonempty (Py.strip new_style)
          then lxml.set d elem "style" new_style
          else lxml.pop d elem "style") ;;;
        locals_upd (fun l =>
          mkBreaksLocals (scene_breaks_created l) (S (page_breaks_removed l)) true))).

Definition style_pass (root : nat) : M BreaksLocals unit :=
  elements_with_page_break <-- ask (fun d => xpath_styled_page_breaks d root) ;;
  for_each elements_with_page_break strip_style.

(** The statements of the [try] block up to the write-back test. *)
Definition breaks_body (root : nat) : M BreaksLocals unit :=
  page_break_pass root ;;;
  scene_break_pass root ;;;
  br_pass root ;;;
  style_pass root.

(** The description logged for a changed file. *)
Definition breaks_changes (l : BreaksLocals) : list string :=
  (if (0 <? scene_breaks_created l)%nat
   then ["Created " +:+ Py.str_of_nat (scene_breaks_created l) +:+ " scene breaks"]
   else [])
  ++
  (if (0 <? page_breaks_removed l)%nat
   then ["Removed " +:+ Py.str_of_nat (page_breaks_removed l) +:+ " page breaks"]
   else []).

(** One turn of [for xhtml_path in book.get_xhtml_files():] *)
Definition breaks_file (st : World * Reporter * BreaksLocals) (xhtml_path : Path)
  : World * Reporter * BreaksLocals :=
  let '(w, reporter, l) := st in
  if negb (path_exists w xhtml_path) then st
  else
    match parse_xhtml w xhtml_path with
    | inl e => (w, log_change reporter xhtml_path ("Error processing: " +:+ Py.str_of_exc e), l)
    | inr doc =>
        match breaks_body (lxml.root doc)
                (lxml.arena doc,
                 mkBreaksLocals (scene_breaks_created l) (page_breaks_removed l) false) with
        | (inr _, (tree, l')) =>
            if breaks_changed l' then
              let w' := write_file w xhtml_path
                          (XhtmlFile (lxml.mkDocument tree (lxml.root doc))) in
              match breaks_changes l' with
              | [] => (w', reporter, l')
              | changes => (w', log_change reporter xhtml_path (Py.join "; " changes), l')
              end
            else (w, reporter, l')
        | (inl e, (_, l')) =>
            (w, log_change reporter xhtml_path ("Error processing: " +:+ Py.str_of_exc e), l')
        end
    end.

(** [normalize_context_breaks] *)
Definition normalize_context_breaks (book : EpubBook) (st : World * Reporter)
  : World * Reporter :=
  let '(w, reporter) := st in
  let '(w', reporter', l) :=
    fold_left breaks_file (get_xhtml_files book) (w, reporter, mkBreaksLocals 0 0 false) in
  (w',
   increment (increment reporter' "breaks.normalized_scene_breaks" (scene_breaks_created l))
             "breaks.removed_page_breaks" (page_breaks_removed l)).

(* ===================================================================== *)
(** * epub_repair/rules/css_cleanup.py                                    *)
(* ===================================================================== *)

(** One turn of a [for rule in rules:] loop of the cleanup.  [applies]
    is the test that comes before [hasattr(rule, "content")] (for the first
    loop [hasattr(rule, "prelude")] and the selector test), [drop] the
    condition under which an item is left out of the new [rule.content].
    The state is the rules as the loop has left them so far, the running
    count and [changed].  [len(rule.content)] raises for an at-rule whose
    content is [None]. *)
Definition css_loop_turn (applies : CssRule -> bool) (drop : ComponentValue -> bool)
    (st : Stylesheet * nat * bool) (rule : CssRule) : Py.Exc + Stylesheet * nat * bool :=
  let '(done, count, changed) := st in
  if applies rule then
    match content rule with
    | Some (Some decls) =>
        let original_count := length decls in
        let kept := List.filter (fun decl => negb (drop decl)) decls in
        let removed := original_count - length kept in
        if (0 <? removed)%nat
        then inr (done ++ [set_content rule kept], count + removed, true)
        else inr (done ++ [set_content rule kept], count, changed)
    | Some None => inl (Py.TypeError "object of type 'NoneType' has no len()")
    | None => inr (done ++ [rule], count, changed)
    end
  else inr (done ++ [rule], count, changed).

(** The loop over [rules].  An exception leaves the loop and the [try]
    block; the count keeps the value it has reached. *)
Fixpoint css_loop (applies : CssRule -> bool) (drop : ComponentValue -> bool)
    (rules : Stylesheet) (st : Stylesheet * nat * bool)
  : (Py.Exc + Stylesheet * bool) * nat :=
  match rules with
  | [] => let '(done, count, changed) := st in (inr (done, changed), count)
  | rule :: rest =>
      match css_loop_turn applies drop st rule with
      | inr st' => css_loop applies drop rest st'
      | inl e => (inl e, snd (fst st))
      end
  end.

(** [hasattr(rule, "prelude")] and [selector_text in ("body", "html")] *)
Definition selects_body_or_html (rule : CssRule) : bool :=
  match prelude rule with
  | Some _ => Py.mem (_get_selector_text rule) ["body"; "html"]
  | None => false
  end.

(** The three loops of [simplify_css_safe] on one stylesheet. *)
Definition css_safe_body (rules : Stylesheet) (properties_removed : nat)
  : (Py.Exc + Stylesheet * bool) * nat :=
  match css_loop selects_body_or_html
          (fun decl => has_name decl "font-size" && _is_absolute_size decl)
          rules ([], properties_removed, false) with
  | (inr (rules1, c1), n1) =>
      match css_loop (fun _ => true)
              (fun decl => has_name decl "line-height" && _is_fixed_line_height decl)
              rules1 ([], n1, c1) with
      | (inr (rules2, c2), n2) =>
          css_loop (fun _ => true)
            (fun decl => has_name decl "display" && _is_flex_or_grid decl)
            rules2 ([], n2, c2)
      | (inl e, n2) => (inl e, n2)
      end
  | (inl e, n1) => (inl e, n1)
  end.

(** The loop of [simplify_css_aggressive] on one stylesheet. *)
Definition css_aggressive_body (rules : Stylesheet) (font_families_removed : nat)
  : (Py.Exc + Stylesheet * bool) * nat :=
  css_loop (fun _ => true) (fun decl => has_name decl "font-family")
    rules ([], font_families_removed, false).
(** One turn of [for css_path in book.get_css_files():] in
    [simplify_css_safe]; the state carries [properties_removed]. *)
Definition css_safe_file (st : World * Reporter * nat) (css_path : Path)
  : World * Reporter * nat :=
  let '(w, reporter, properties_removed) := st in
  if negb (path_exists w css_path) then st
  else
    match read_css w css_path with
    | inl e =>
        (w, log_change reporter css_path ("Error processing CSS: " +:+ Py.str_of_exc e),
         properties_removed)
    | inr rules =>
        match css_safe_body rules properties_removed with
        | (inr (rules', changed), properties_removed') =>
            if changed then
              (write_file w css_path (CssFile rules'),
               log_change reporter css_path
                 ("Removed " +:+ Py.str_of_nat properties_removed'
                  +:+ " aggressive CSS properties"),
               properties_removed')
            else (w, reporter, properties_removed')
        | (inl e, properties_removed') =>
            (w, log_change reporter css_path ("Error processing CSS: " +:+ Py.str_of_exc e),
             properties_removed')
        end
    end.

(** [simplify_css_safe]; [properties_modified] stays 0. *)
Definition simplify_css_safe `{PathOps} (book : EpubBook) (st : World * Reporter)
  : World * Reporter :=
  let '(w, reporter) := st in
  let properties_modified := 0 in
  let '(w', reporter', properties_removed) :=
    fold_left css_safe_file (get_css_files book w) (w, reporter, 0) in
  (w',
   increment (increment reporter' "css.removed_properties" properties_removed)
             "css.modified_properties" properties_modified).

(** One turn of the file loop of [simplify_css_aggressive]. *)
Definition css_aggressive_file (st : World * Reporter * nat) (css_path : Path)
  : World * Reporter * nat :=
  let '(w, reporter, font_families_removed) := st in
  if negb (path_exists w css_path) then st
  else
    match read_css w css_path with
    | inl e =>
        (w, log_change reporter css_path ("Error processing CSS: " +:+ Py.str_of_exc e),
         font_families_removed)
    | inr rules =>
        match css_aggressive_body rules font_families_removed with
        | (inr (rules', changed), font_families_removed') =>
            if changed then
              (write_file w css_path (CssFile rules'),
               log_change reporter css_path
                 ("Removed " +:+ Py.str_of_nat font_families_removed'
                  +:+ " font-family declarations"),
               font_families_removed')
            else (w, reporter, font_families_removed')
        | (inl e, font_families_removed') =>
            (w, log_change reporter css_path ("Error processing CSS: " +:+ Py.str_of_exc e),
             font_families_removed')
        end
    end.

(** [simplify_css_aggressive]; [font_faces_removed] stays 0. *)
Definition simplify_css_aggressive `{PathOps} (book : EpubBook) (st : World * Reporter)
  : World * Reporter :=
  let '(w, reporter) := st in
  let font_faces_removed := 0 in
  let '(w', reporter', font_families_removed) :=
    fold_left css_aggressive_file (get_css_files book w) (w, reporter, 0) in
  (w',
   increment (increment reporter' "css.removed_font_families" font_families_removed)
             "css.removed_font_faces" font_faces_removed).

(* ===================================================================== *)
(** * epub_repair/rules/__init__.py and epub_repair/cli.py                *)
(* ===================================================================== *)

(** A rule is called as [rule(book, reporter)] and works on the extracted
    files.  Every exception inside a rule is caught by the rule itself, so
    the [try] around the call in [run_repair] has nothing to catch here. *)
Definition Rule := EpubBook -> World * Reporter -> World * Reporter.

Definition SAFE_RULES `{PathOps} : list Rule :=
  [ normalize_headings;
    normalize_paragraphs_and_indents;
    normalize_lists;
    normalize_context_breaks;
    normalize_images;
    simplify_css_safe ].

Definition AGGRESSIVE_RULES `{PathOps} : list Rule :=
  SAFE_RULES ++ [ simplify_css_aggressive ].

(** [for rule in rules: rule(book, reporter)] *)
Definition apply_rules (rules : list Rule) (book : EpubBook) (st : World * Reporter)
  : World * Reporter :=
  fold_left (fun st rule => rule book st) rules st.

Inductive Mode := safe | aggressive.

(** [run_repair], from the extracted directory to the one that is
    repackaged, with the reporter the summary is read from. *)
Definition run_repair `{PathOps} (book : EpubBook) (w : World) (mode : Mode)
  : World * Reporter :=
  let rules :=
    match mode with
    | aggressive => AGGRESSIVE_RULES
    | safe => SAFE_RULES
    end in
  let reporter := new_reporter in
  apply_rules rules book (w, reporter).

(** ** What the cleanup loops select *)

(** The items the three loops of Safe mode leave out of [rule]. *)
Definition safe_drops (rule : CssRule) (decl : ComponentValue) : bool :=
  (selects_body_or_html rule && has_name decl "font-size" && _is_absolute_size decl)
  || (has_name decl "line-height" && _is_fixed_line_height decl)
  || (has_name decl "display" && _is_flex_or_grid decl).

(** The items the loop of Aggressive mode leaves out. *)
Definition aggressive_drops (decl : ComponentValue) : bool :=
  has_name decl "font-family".

(** A rule without the items [drop] selects. *)
Definition without_items (drop : ComponentValue -> bool) (rule : CssRule) : CssRule :=
  match content rule with
  | Some (Some decls) => set_content rule (List.filter (fun d => negb (drop d)) decls)
  | _ => rule
  end.

(** The number of items of a rule that [drop] selects. *)
Definition dropped_count (drop : ComponentValue -> bool) (rule : CssRule) : nat :=
  match content rule with
  | Some (Some decls) => length (List.filter drop decls)
  | _ => 0
  end.

(** No rule has [content = None]. *)
Definition has_block (rule : CssRule) : bool :=
  match content rule with
  | Some None => false
  | _ => true
  end.

(* ===================================================================== *)
(** * epub_upgrade/nav_conversion.py                                      *)
(* ===================================================================== *)

(** The upgrade tool works on [xml.etree.ElementTree] elements, which know
    their children but not their parent; the conversion reads the NCX tree
    and builds a new tree, so plain trees are enough.  Tags are written
    with their namespace as ElementTree keeps them, [{uri}local]. *)
Module ET.

#[warnings="-register-all"]
Inductive Element :=
| Elem (tag : string) (attrib : list (string * string))
       (text : option string) (children : list Element).

Definition tag (e : Element) : string := let 'Elem t _ _ _ := e in t.
Definition attrib (e : Element) : list (string * string) := let 'Elem _ a _ _ := e in a.
Definition text (e : Element) : option string := let 'Elem _ _ t _ := e in t.
Definition children (e : Element) : list Element := let 'Elem _ _ _ c := e in c.

(** [e.get(key, default)] *)
Definition get (e : Element) (key default : string) : string :=
  from_option (fun v => v) default (Py.dict_get (attrib e) key).

(** [e.findall("ns:name")]: the direct children with that tag. *)
Definition findall (e : Element) (name : string) : list Element :=
  List.filter (fun k => String.eqb (tag k) name) (children e).

(** [e.find("ns:name")]: the first direct child with that tag. *)
Definition find (e : Element) (name : string) : option Element :=
  head (findall e name).

(** The descendants of [e] in document order, [e] itself left out. *)
Fixpoint descendants (e : Element) : list Element :=
  match e with
  | Elem _ _ _ kids => flat_map (fun k => k :: descendants k) kids
  end.

(** [e.findall(".//ns:name")]: the descendants with that tag, at every
    depth, in document order. *)
Definition findall_deep (e : Element) (name : string) : list Element :=
  List.filter (fun k => String.eqb (tag k) name) (descendants e).

(** [e.find(".//ns:name")] *)
Definition find_deep (e : Element) (name : string) : option Element :=
  head (findall_deep e name).

End ET.

(** [ncx:name] under [ncx_ns] *)
Definition ncx (name : string) : string :=
  "{http://www.daisy.org/z3986/2005/ncx/}" +:+ name.

(** One turn of the loop of [_convert_nav_points]: the [li] appended to
    [parent_ol] for [nav_point], or nothing when the turn ends in
    [continue].  The recursive call fills [child_ol] from the direct
    [navPoint] children. *)
Fixpoint convert_nav_point (nav_point : ET.Element) : list ET.Element :=
  match nav_point with
  | ET.Elem _ _ _ kids =>
      match ET.find nav_point (ncx "navLabel"), ET.find nav_point (ncx "content") with
      | Some nav_label, Some content =>
          match ET.find nav_label (ncx "text") with
          | Some label_text =>
              let text := or_empty (ET.text label_text) in
              let src := ET.get content "src" "" in
              let a := ET.Elem "a" [("href", src)] (Some text) [] in
              let child_nav_points := ET.findall nav_point (ncx "navPoint") in
              match child_nav_points with
              | _ :: _ =>
                  let child_ol :=
                    ET.Elem "ol" [] None
                      (flat_map
                         (fun k =>
                            if String.eqb (ET.tag k) (ncx "navPoint")
                            then convert_nav_point k else [])
                         kids) in
                  [ET.Elem "li" [] None [a; child_ol]]
              | [] => [ET.Elem "li" [] None [a]]
              end
          | None => []
          end
      | _, _ => []
      end
  end.

(** [_convert_nav_points(nav_points, parent_ol, ncx_ns)]: the children
    appended to [parent_ol]. *)
Definition _convert_nav_points (nav_points : list ET.Element) : list ET.Element :=
  flat_map convert_nav_point nav_points.

(** [convert_ncx_to_nav_xhtml], from the parsed NCX root to the [html]
    element written to [nav.xhtml]. *)
Definition convert_ncx_to_nav_xhtml (ncx_root : ET.Element) : Py.Exc + ET.Element :=
  match ET.find_deep ncx_root (ncx "navMap") with
  | None => inl (Py.ValueError "No navMap found in NCX")
  | Some nav_map =>
      let title := ET.Elem "title" [] (Some "Table of Contents") [] in
      let head := ET.Elem "head" [] None [title] in
      let h1 := ET.Elem "h1" [] (Some "Table of Contents") [] in
      let ol :=
        ET.Elem "ol" [] None
          (_convert_nav_points (ET.findall_deep nav_map (ncx "navPoint"))) in
      let nav := ET.Elem "nav" [("epub:type", "toc")] None [h1; ol] in
      let body := ET.Elem "body" [] None [nav] in
      inr (ET.Elem "html"
             [("xmlns", "http://www.w3.org/1999/xhtml");
              ("xmlns_epub", "http://www.idpf.org/2007/ops")]
             None [head; body])
  end.

(** ** The table of contents as the specification sees it *)

(** An NCX entry: label, target and child entries. *)
#[warnings="-register-all"]
Inductive NavigationSource :=
| NavEntry (label target : string) (entries : list NavigationSource).

(** The [navLabel] and [content] elements of an entry. *)
Definition label_elem (label : string) : ET.Element :=
  ET.Elem (ncx "navLabel") [] None [ET.Elem (ncx "text") [] (Some label) []].
Definition content_elem (target : string) : ET.Element :=
  ET.Elem (ncx "content") [("src", target)] None [].

(** The [navPoint] element of an entry. *)
Fixpoint nav_point_of (n : NavigationSource) : ET.Element :=
  match n with
  | NavEntry label target entries =>
      ET.Elem (ncx "navPoint") [] None
        (label_elem label :: content_elem target :: map nav_point_of entries)
  end.

(** The NCX document of a table of contents. *)
Definition ncx_of (toc : list NavigationSource) : ET.Element :=
  ET.Elem (ncx "ncx") [] None
    [ET.Elem (ncx "navMap") [] None (map nav_point_of toc)].

(** The list item that mirrors an entry: a link with the target and the
    label, and a nested ordered list for the child entries, if any. *)
Fixpoint mirror (n : NavigationSource) : ET.Element :=
  match n with
  | NavEntry label target entries =>
      let a := ET.Elem "a" [("href", target)] (Some label) [] in
      match entries with
      | [] => ET.Elem "li" [] None [a]
      | _ :: _ => ET.Elem "li" [] None [a; ET.Elem "ol" [] None (map mirror entries)]
      end
  end.

(** The top-level [ol] of the navigation document. *)
Definition toc_list (html : ET.Element) : option (list ET.Element) :=
  body ← ET.find html "body";
  nav ← ET.find body "nav";
  ol ← ET.find nav "ol";
  Some (ET.children ol).

(* ===================================================================== *)
(** * Markup as it is written in a file                                   *)
(* ===================================================================== *)

(** The nesting of elements in a source file, used to write documents down
    and to read them back.  [load] builds the arena that the parser hands
    out for it (elements numbered in document order); [dump] reads the
    markup under an element back from an arena. *)
#[warnings="-register-all"]
Inductive Markup :=
| Node (tag : string) (attrib : list (string * string))
       (text : option string) (tail : option string) (children : list Markup).

Fixpoint load_node (m : Markup) (parent : option nat) (d : lxml.Arena) : lxml.Arena * nat :=
  match m with
  | Node tag attrib text tail kids =>
      let e := length d in
      let d0 := d ++ [lxml.mkElement tag attrib text tail parent []] in
      let '(d1, ids) :=
        (fix load_children (l : list Markup) (acc : lxml.Arena * list nat) :=
           match l with
           | [] => acc
           | k :: r =>
               let '(d', c) := load_node k (Some e) (fst acc) in
               load_children r (d', snd acc ++ [c])
           end) kids (d0, []) in
      (alter (lxml.set_children_ ids) e d1, e)
  end.

Definition load (m : Markup) : lxml.Document :=
  let '(d, r) := load_node m None [] in lxml.mkDocument d r.

Fixpoint dump (fuel : nat) (d : lxml.Arena) (e : nat) : Markup :=
  Node (lxml.get_tag d e) (lxml.get_attrib d e) (lxml.get_text d e) (lxml.get_tail d e)
       (match fuel with
        | O => []
        | S fuel' => map (dump fuel' d) (lxml.get_children d e)
        end).

Definition dump_document (doc : lxml.Document) : Markup :=
  dump (length (lxml.arena doc)) (lxml.arena doc) (lxml.root doc).

(** Short forms: an element with children only, and one with text only. *)
Definition elem (tag : string) (children : list Markup) : Markup :=
  Node tag [] None None children.
Definition leaf (tag : string) (attrib : list (string * string)) (text : option string) : Markup :=
  Node tag attrib text None [].

(** A book with the given content documents in the spine, all listed in
    the manifest as application/xhtml+xml, and the extracted directory
    that holds them. *)
Definition book_of (paths : list Path) : EpubBook :=
  mkEpubBook "/epub" "/epub/content.opf"
    (map (fun p => mkSpineItem p p) paths)
    (map (fun p => (p, mkManifestItem p p "application/xhtml+xml")) paths).

Definition world_of (docs : list (Path * Markup)) : World :=
  mkWorld (list_to_map (map (fun pm => (fst pm, XhtmlFile (load (snd pm)))) docs)) [].

(** The content document at a path, as markup. *)
Definition markup_at (w : World) (p : Path) : option Markup :=
  match files w !! p with
  | Some (XhtmlFile doc) => Some (dump_document doc)
  | _ => None
  end.

(** A stand-in for [pathlib] in the examples: paths are joined with a
    slash and the parent of the package file is the directory itself. *)
Definition example_paths : PathOps :=
  {| path_parent := fun _ => "/epub";
     path_join_resolve := fun dir href => dir +:+ "/" +:+ href |}.

(* ===================================================================== *)
(** * Example documents                                                   *)
(* ===================================================================== *)

Module Examples.

Definition page (body : list Markup) : Markup :=
  elem "html" [elem "body" body].

Definition empty_p : Markup := leaf "p" [] None.

(** Three empty paragraphs in a row, between two paragraphs of text. *)
Definition three_empty : Markup :=
  page [leaf "p" [] (Some "Before"); empty_p; empty_p; empty_p; leaf "p" [] (Some "After")].

(** What the scene-break rule is meant to make of it. *)
Definition three_empty_expected : Markup :=
  page [leaf "p" [] (Some "Before");
        leaf "hr" [("class", "scene-break")] None;
        leaf "p" [] (Some "After")].

(** Three paragraphs written as a bullet list. *)
Definition dash_list : Markup :=
  page [leaf "p" [] (Some "- A"); leaf "p" [] (Some "- B"); leaf "p" [] (Some "- C")].

Definition dash_list_expected : Markup :=
  page [elem "ul" [leaf "li" [] (Some "A"); leaf "li" [] (Some "B"); leaf "li" [] (Some "C")]].

(** A fake heading as a document's only content. *)
Definition fake_heading : Markup :=
  page [leaf "p" [("class", "heading1")] (Some "Chapter One")].

(** A fake heading marked with a class that does not hold "heading". *)
Definition chapter_paragraph : Markup :=
  page [leaf "p" [("class", "chapter")] (Some "Chapter One")].

(** A fake heading with a second attribute, an inline child and text
    after the child. *)
Definition rich_heading : Markup :=
  page [Node "p" [("class", "heading1"); ("id", "c1")] (Some "Chapter ") None
          [Node "em" [] (Some "One") (Some " begins") []]].

(** What the heading rule is meant to make of it. *)
Definition rich_heading_expected : Markup :=
  page [Node "h1" [("id", "c1")] (Some "Chapter ") None
          [Node "em" [] (Some "One") (Some " begins") []]].

(** A fake heading of the third level. *)
Definition section_paragraph : Markup :=
  page [leaf "p" [("class", "section-head")] (Some "First section")].

(** A document no rule has anything to do on. *)
Definition plain : Markup :=
  page [leaf "p" [] (Some "Plain text.")].


(** An empty paragraph that is the fourth child of its parent and the
    first paragraph of the document, before a heading without keyword. *)
Definition early_break : Markup :=
  page [leaf "h1" [] (Some "A Novel"); elem "div" []; elem "div" [];
        empty_p; leaf "h2" [] (Some "Prologue"); leaf "p" [] (Some "Text.")].

(** A page-break paragraph before a chapter heading, and one before
    body text. *)
Definition break_before_chapter : Markup :=
  page [leaf "p" [] (Some "One."); leaf "p" [] (Some "Two."); leaf "p" [] (Some "Three.");
        leaf "p" [("class", "page-break")] None;
        leaf "h2" [] (Some "Chapter Two");
        leaf "p" [("class", "page-break")] None;
        leaf "p" [] (Some "Body text.")].

(** U+00A0, the no-break space, in UTF-8. *)
Definition nbsp : string := String "194" (String "160" EmptyString).

(** A paragraph that holds a no-break space only and an empty paragraph,
    after three paragraphs of text. *)
Definition nbsp_break : Markup :=
  page [leaf "p" [] (Some "a"); leaf "p" [] (Some "b"); leaf "p" [] (Some "c");
        leaf "p" [] (Some nbsp); empty_p; leaf "p" [] (Some "after")].

(** A table of contents with one nested entry. *)
Definition nested_toc : list NavigationSource :=
  [NavEntry "Part I" "part1.xhtml" [NavEntry "Chapter 1" "ch1.xhtml" []]].

(** The rule [body { font-size: 12px; line-height: 1.0; font-family: serif; }]
    as the parser hands it out: the prelude [body ] and the tokens of
    the block. *)
Definition body_rule : CssRule :=
  QualifiedRule "body "
    [Token "whitespace" " ";
     Token "ident" "font-size"; Token "literal" ":"; Token "whitespace" " ";
     Token "dimension" "12.0"; Token "literal" ";"; Token "whitespace" " ";
     Token "ident" "line-height"; Token "literal" ":"; Token "whitespace" " ";
     Token "number" "1.0"; Token "literal" ";"; Token "whitespace" " ";
     Token "ident" "font-family"; Token "literal" ":"; Token "whitespace" " ";
     Token "ident" "serif"; Token "literal" ";"; Token "whitespace" " "].

(** [p { width: font-family(serif) }]: a function with the name of a
    property. *)
Definition function_rule : CssRule :=
  QualifiedRule "p "
    [Token "whitespace" " ";
     Token "ident" "width"; Token "literal" ":"; Token "whitespace" " ";
     FunctionBlock "font-family" [Token "ident" "serif"]; Token "whitespace" " "].

Definition function_rule_expected : CssRule :=
  QualifiedRule "p "
    [Token "whitespace" " ";
     Token "ident" "width"; Token "literal" ":"; Token "whitespace" " ";
     Token "whitespace" " "].

(** [@import url(base.css);]: an at-rule without a block. *)
Definition import_rule : CssRule :=
  AtRule "import" " url(base.css)" None.

(** A book whose manifest lists one stylesheet, and the extracted
    directory with that stylesheet. *)
Definition styled_book : EpubBook :=
  mkEpubBook "/epub" "/epub/content.opf" []
    [("css", mkManifestItem "css" "style.css" "text/css")].

Definition styled_world (rules : Stylesheet) : World :=
  mkWorld {[ "/epub/style.css" := CssFile rules ]} [].

(** Running one rule on a book with the single content document [m]. *)
Definition run_rule_on (rule : Rule) (m : Markup) : World * Reporter :=
  rule (book_of ["ch1.xhtml"]) (world_of [("ch1.xhtml", m)], new_reporter).

End Examples.

(* ===================================================================== *)
(** * Notions used in the statements                                      *)
(* ===================================================================== *)

(** The reporter [r'] extends [r] by change-log entries only. *)
Definition only_logs (r r' : Reporter) : Prop :=
  counters r' = counters r /\ changes r `prefix_of` changes r'.

(** [r'] extends [r] by change-log entries and by counters among [keys]. *)
Definition extends_with (keys : list string) (r r' : Reporter) : Prop :=
  (forall k, k ∉ keys -> counters r' !! k = counters r !! k)
  /\ changes r `prefix_of` changes r'.

(** The rules that work on content documents, and their counters. *)
Definition xhtml_rules : list Rule :=
  [ normalize_headings; normalize_paragraphs_and_indents; normalize_lists;
    normalize_context_breaks; normalize_images ].

Definition xhtml_keys : list string :=
  ["headings.converted_fake_headings"; "headings.fixed_nesting";
   "paragraphs.converted_divs"; "paragraphs.removed_br_breaks";
   "lists.converted_paragraphs";
   "breaks.normalized_scene_breaks"; "breaks.removed_page_breaks";
   "images.added_alt"].

(** The counters of the Safe rules. *)
Definition safe_keys : list string :=
  xhtml_keys ++ ["css.removed_properties"; "css.modified_properties"].

(** The same paths exist, and they hold the same stylesheets. *)
Definition same_stylesheets (w w' : World) : Prop :=
  (forall q, path_exists w' q = path_exists w q)
  /\ (forall q rules, files w' !! q = Some (CssFile rules) <-> files w !! q = Some (CssFile rules)).

(** ** Claims restated from the specification *)



Definition next_is_h1_h2 (d : lxml.Arena) (p : nat) : bool :=
  is_h1_h2 d (lxml.getnext d p).

Definition next_has_keyword (d : lxml.Arena) (p : nat) : bool :=
  match lxml.getnext d p with
  | Some n => has_chapter_keyword d n
  | None => false
  end.

Definition among_first_three_children (d : lxml.Arena) (p : nat) : bool :=
  match lxml.getparent d p with
  | Some parent =>
      match lxml.index_in p (lxml.get_children d parent) with
      | Some p_index => (p_index <? 3)%nat
      | None => false
      end
  | None => false
  end.

(** The retention rule as the claim states it. *)
Definition retained_as_claimed (d : lxml.Arena) (p : nat) : bool :=
  (next_is_h1_h2 d p && next_has_keyword d p)
  || (among_first_three_children d p && next_is_h1_h2 d p).

(** The retention rule of the code, for the paragraph at position [i] of
    the document's paragraphs. *)
Definition retained (d : lxml.Arena) (i p : nat) : bool :=
  next_is_h1_h2 d p
  && (next_has_keyword d p || (i <? 3)%nat || among_first_three_children d p).

(** The paragraphs of [l] that have a parent in [d]. *)
Definition with_parent (d : lxml.Arena) (l : list nat) : list nat :=
  List.filter (fun x => bool_decide (is_Some (lxml.getparent d x))) l.

(** The retention rule as the claim states it, for a whole document: a
    candidate is removed exactly when the stated rule does not keep it. *)
Definition retention_rule_as_claimed (doc : lxml.Document) : Prop :=
  let d := lxml.arena doc in
  let paragraphs := lxml.xpath_tag d (lxml.root doc) "p" in
  forall i p,
    paragraphs !! i = Some p -> is_page_break d p = true ->
    (In p (collect_page_breaks d 0 paragraphs) <-> retained_as_claimed d p = false).




(* ===================================================================== *)
(** * Further parts of the sources                                        *)
(* ===================================================================== *)

(* --------------------------------------------------------------------- *)
(** ** epub_repair/models.py and epub_repair/reporting.py *)
(* --------------------------------------------------------------------- *)

(** [Reporter.get_summary]: the counters, the change records and
    [len(unique_files)], the number of different files named in the
    change records. *)
Definition get_summary (self : Reporter) : gmap string nat * list Change * nat :=
  let unique_files : gset string := list_to_set (map file (changes self)) in
  (counters self, changes self, size unique_files).

(** The entry ["total_files_modified"] of the summary. *)
Definition total_files_modified (self : Reporter) : nat := snd (get_summary self).

(* ===================================================================== *)
(** * Properties                                                          *)
(* ===================================================================== *)

Lemma get_xhtml_files_acc (self : EpubBook) (l : list SpineItem) (acc : list Path) :
  fold_left
    (fun xhtml_files spine_item =>
       match Py.dict_get (manifest_items self) (idref spine_item) with
       | Some manifest_item =>
           if String.eqb (media_type manifest_item) "application/xhtml+xml"
           then xhtml_files ++ [spine_href spine_item]
           else xhtml_files
       | None => xhtml_files
       end) l acc
  = acc ++ map spine_href (List.filter (is_content_document self) l).
Proof.
  revert acc. induction l as [|s l IH]; intros acc; simpl.
  - now rewrite app_nil_r.
  - rewrite IH. unfold is_content_document at 2.
    destruct (Py.dict_get (manifest_items self) (idref s)) as [m|]; [|reflexivity].
    destruct (String.eqb (media_type m) "application/xhtml+xml"); [|reflexivity].
    simpl. now rewrite <- app_assoc.
Qed.

(** A spine item whose idref has no manifest entry is not selected. *)
Lemma dangling_idref_is_left_out (self : EpubBook) (s : SpineItem) :
  Py.dict_get (manifest_items self) (idref s) = None ->
  is_content_document self s = false.
Proof. intros Hnone. unfold is_content_document. now rewrite Hnone. Qed.

(** C10: [get_xhtml_files] returns exactly the hrefs of the spine items, in
    spine order, whose idref maps to a manifest item of media type
    application/xhtml+xml; a spine item with a dangling idref or another
    media type is left out ([is_content_document] is false for it), and the
    function is total: nothing is raised. *)
Theorem C10_get_xhtml_files_spec (self : EpubBook) :
  get_xhtml_files self
  = map spine_href (List.filter (is_content_document self) (spine_items self)).
Proof. unfold get_xhtml_files. now rewrite get_xhtml_files_acc. Qed.

(* --------------------------------------------------------------------- *)
(** ** The rules on the example documents                                 *)
(* --------------------------------------------------------------------- *)

Import Examples.

(** C1: on a document with three empty paragraphs in a row the break rule
    removes the three paragraphs as page breaks and puts nothing in their
    place: no [hr] with class scene-break is created and the scene-break
    counter stays 0, where the claim promises one [hr] and a count of 1. *)
Theorem C1_three_empty_paragraphs_vanish :
  let '(w', r) := run_rule_on normalize_context_breaks three_empty in
  markup_at w' "ch1.xhtml"
    = Some (page [leaf "p" [] (Some "Before"); leaf "p" [] (Some "After")])
  /\ markup_at w' "ch1.xhtml" <> Some three_empty_expected
  /\ counters r !! "breaks.normalized_scene_breaks" = Some 0
  /\ counters r !! "breaks.removed_page_breaks" = Some 3.
Proof. vm_compute. repeat split; discriminate. Qed.

(** C2: on the paragraphs "- A", "- B", "- C" the list rule builds the
    [ul] with its three items, removes the paragraphs, and then finds no
    parent to insert the list under: the written document has an empty
    body, although one list is counted. *)
Theorem C2_list_is_built_but_never_inserted :
  let '(w', r) := run_rule_on normalize_lists dash_list in
  markup_at w' "ch1.xhtml" = Some (page [])
  /\ markup_at w' "ch1.xhtml" <> Some dash_list_expected
  /\ counters r !! "lists.converted_paragraphs" = Some 1
  /\ written w' = ["ch1.xhtml"].
Proof. vm_compute. repeat split; discriminate. Qed.

(** The list element of that run: it is complete, and it has no parent. *)
Example C2_detached_list :
  let doc := load dash_list in
  match lists_body (lxml.root doc) (lxml.arena doc, mkListsLocals 0) with
  | (inr _, (tree, _)) =>
      dump 3 tree 5 = elem "ul" [leaf "li" [] (Some "A"); leaf "li" [] (Some "B");
                                  leaf "li" [] (Some "C")]
      /\ lxml.getparent tree 5 = None
  | _ => False
  end.
Proof. vm_compute. split; reflexivity. Qed.


(* --------------------------------------------------------------------- *)
(** ** NCX conversion                                                     *)
(* --------------------------------------------------------------------- *)

Lemma convert_nav_point_unfold tag attrs t kids :
  convert_nav_point (ET.Elem tag attrs t kids) =
  match ET.find (ET.Elem tag attrs t kids) (ncx "navLabel"),
        ET.find (ET.Elem tag attrs t kids) (ncx "content") with
  | Some nav_label, Some content =>
      match ET.find nav_label (ncx "text") with
      | Some label_text =>
          let a := ET.Elem "a" [("href", ET.get content "src" "")]
                     (Some (or_empty (ET.text label_text))) [] in
          match ET.findall (ET.Elem tag attrs t kids) (ncx "navPoint") with
          | _ :: _ =>
              [ET.Elem "li" [] None
                 [a; ET.Elem "ol" [] None
                       (flat_map
                          (fun k => if String.eqb (ET.tag k) (ncx "navPoint")
                                    then convert_nav_point k else [])
                          kids)]]
          | [] => [ET.Elem "li" [] None [a]]
          end
      | None => []
      end
  | _, _ => []
  end.
Proof. reflexivity. Qed.

Lemma nav_point_of_tag (n : NavigationSource) :
  ET.tag (nav_point_of n) = ncx "navPoint".
Proof. destruct n; reflexivity. Qed.

Lemma filter_nav_points (entries : list NavigationSource) :
  List.filter (fun k => String.eqb (ET.tag k) (ncx "navPoint")) (map nav_point_of entries)
  = map nav_point_of entries.
Proof.
  induction entries as [|e es IH]; [reflexivity|].
  cbn [map List.filter]. rewrite nav_point_of_tag, String.eqb_refl. now rewrite IH.
Qed.

Lemma nav_point_of_unfold label target entries :
  nav_point_of (NavEntry label target entries)
  = ET.Elem (ncx "navPoint") [] None
      (label_elem label :: content_elem target :: map nav_point_of entries).
Proof. reflexivity. Qed.

Lemma find_in_nav_point label target rest :
  let np := ET.Elem (ncx "navPoint") [] None
              (label_elem label :: content_elem target :: rest) in
  ET.find np (ncx "navLabel") = Some (label_elem label)
  /\ ET.find np (ncx "content") = Some (content_elem target)
  /\ ET.findall np (ncx "navPoint")
     = List.filter (fun k => String.eqb (ET.tag k) (ncx "navPoint")) rest
  /\ ET.find (label_elem label) (ncx "text") = Some (ET.Elem (ncx "text") [] (Some label) []).
Proof. repeat split. Qed.

(** The recursion of [_convert_nav_points] over the direct children gives
    every entry exactly the list item that mirrors it. *)
Lemma convert_nav_point_mirror :
  forall n : NavigationSource, convert_nav_point (nav_point_of n) = [mirror n].
Proof.
  fix IH 1. intros [label target entries].
  assert (Hkids : flat_map
            (fun k => if String.eqb (ET.tag k) (ncx "navPoint")
                      then convert_nav_point k else [])
            (map nav_point_of entries) = map mirror entries).
  { induction entries as [|e es IHes]; [reflexivity|].
    cbn [map flat_map]. rewrite IHes, nav_point_of_tag, String.eqb_refl.
    rewrite (IH e). reflexivity. }
  clear IH.
  rewrite nav_point_of_unfold, convert_nav_point_unfold.
  destruct (find_in_nav_point label target (map nav_point_of entries))
    as (-> & -> & -> & Htext).
  rewrite Htext, filter_nav_points.
  cbn [flat_map].
  change (String.eqb (ET.tag (label_elem label)) (ncx "navPoint")) with false.
  change (String.eqb (ET.tag (content_elem target)) (ncx "navPoint")) with false.
  cbn [app]. rewrite Hkids.
  destruct entries; reflexivity.
Qed.

(** Called on the direct [navPoint] children of the [navMap],
    [_convert_nav_points] mirrors the whole table of contents, nesting
    included. *)
Lemma direct_children_are_mirrored (toc : list NavigationSource) :
  _convert_nav_points (map nav_point_of toc) = map mirror toc.
Proof.
  induction toc as [|n toc IH]; [reflexivity|].
  unfold _convert_nav_points in *. cbn [map flat_map].
  rewrite IH, convert_nav_point_mirror. reflexivity.
Qed.

(** C3: for a table of contents with a nested entry the navigation
    document does not mirror the nesting: the nested entry is emitted
    inside its parent's item and once more at the top level, because the
    top-level call collects the [navPoint] elements of every depth. *)
Theorem C3_nested_entry_is_emitted_twice :
  match convert_ncx_to_nav_xhtml (ncx_of nested_toc) with
  | inr html =>
      toc_list html
        = Some (map mirror nested_toc ++ [mirror (NavEntry "Chapter 1" "ch1.xhtml" [])])
      /\ toc_list html <> Some (map mirror nested_toc)
  | inl _ => False
  end.
Proof. vm_compute. split; [reflexivity | discriminate]. Qed.

(* --------------------------------------------------------------------- *)
(** ** Stylesheet cleanup                                                 *)
(* --------------------------------------------------------------------- *)

Import Examples.

(** The filters of Safe mode ask for an item with a name and a value; the
    parser hands out no such item. *)
Lemma safe_never_drops rule decl : safe_drops rule decl = false.
Proof.
  unfold safe_drops, has_name, _is_absolute_size, _is_fixed_line_height, _is_flex_or_grid.
  destruct decl; cbn [decl_name decl_value]; now rewrite ?andb_false_r.
Qed.

Lemma filter_keeps_all {A} (f : A -> bool) (l : list A) :
  (forall x, f x = false) -> List.filter (fun x => negb (f x)) l = l.
Proof.
  intros Hf. induction l as [|x l IH]; [reflexivity|].
  cbn. now rewrite Hf, IH.
Qed.

Lemma set_content_same rule decls :
  content rule = Some (Some decls) -> set_content rule decls = rule.
Proof. destruct rule as [p c|k p [c|]|k m]; cbn; intros H; now inversion H. Qed.

Lemma css_loop_turn_keeps applies drop done count changed rule :
  (forall d, drop d = false) ->
  css_loop_turn applies drop (done, count, changed) rule
  = if applies rule && negb (has_block rule)
    then inl (Py.TypeError "object of type 'NoneType' has no len()")
    else inr (done ++ [rule], count, changed).
Proof.
  intros Hd. unfold css_loop_turn, has_block.
  destruct (applies rule); [|reflexivity]. cbn [andb].
  destruct (content rule) as [[decls|]|] eqn:Hc; cbn [negb]; try reflexivity.
  rewrite (filter_keeps_all drop decls Hd), Nat.sub_diag. cbn [Nat.ltb Nat.leb].
  now rewrite (set_content_same rule decls Hc).
Qed.

(** A loop whose filter selects nothing leaves the rules, the count and
    the flag as they are, or raises on a rule without block. *)
Lemma css_loop_keeps applies drop rules : forall done count changed,
  (forall d, drop d = false) ->
  css_loop applies drop rules (done, count, changed)
  = if forallb (fun r => negb (applies r) || has_block r) rules
    then (inr (done ++ rules, changed), count)
    else (inl (Py.TypeError "object of type 'NoneType' has no len()"), count).
Proof.
  induction rules as [|rule rules IH]; intros done count changed Hd.
  - cbn. now rewrite app_nil_r.
  - cbn [css_loop forallb]. rewrite css_loop_turn_keeps by assumption.
    destruct (applies rule), (has_block rule); cbn [andb negb orb fst snd];
      try reflexivity; rewrite IH by assumption; now rewrite <- app_assoc.
Qed.

Lemma forallb_weaken {A} (f g : A -> bool) (l : list A) :
  forallb f l = true -> (forall x, f x = true -> g x = true) -> forallb g l = true.
Proof.
  intros H Hfg. induction l as [|x l IH]; [reflexivity|]. cbn in *.
  apply andb_prop in H as [Hx Hl]. now rewrite (Hfg x Hx), IH.
Qed.

(** The three loops of Safe mode on one stylesheet: nothing is left out
    and nothing is counted; a rule without block ends them with a
    [TypeError]. *)
Lemma css_safe_body_keeps (rules : Stylesheet) (n : nat) :
  css_safe_body rules n
  = if forallb has_block rules then (inr (rules, false), n)
    else (inl (Py.TypeError "object of type 'NoneType' has no len()"), n).
Proof.
  assert (H1 : forall d, has_name d "font-size" && _is_absolute_size d = false).
  { intros d. pose proof (safe_never_drops (QualifiedRule "body" []) d) as H.
    unfold safe_drops in H. apply orb_false_elim in H as [H _].
    apply orb_false_elim in H as [H _]. exact H. }
  assert (H2 : forall d, has_name d "line-height" && _is_fixed_line_height d = false).
  { intros d. pose proof (safe_never_drops (QualifiedRule "body" []) d) as H.
    unfold safe_drops in H. apply orb_false_elim in H as [H _].
    apply orb_false_elim in H as [_ H]. exact H. }
  assert (H3 : forall d, has_name d "display" && _is_flex_or_grid d = false).
  { intros d. pose proof (safe_never_drops (QualifiedRule "body" []) d) as H.
    unfold safe_drops in H. apply orb_false_elim in H as [_ H]. exact H. }
  assert (Hall : forall l : Stylesheet,
            forallb (fun r => negb ((fun _ : CssRule => true) r) || has_block r) l
            = forallb has_block l) by reflexivity.
  unfold css_safe_body. rewrite (css_loop_keeps _ _ _ _ _ _ H1). cbn [app orb].
  destruct (forallb has_block rules) eqn:Hb.
  - rewrite (forallb_weaken has_block _ rules Hb) by (intros x ->; apply orb_true_r).
    rewrite (css_loop_keeps _ _ _ _ _ _ H2), Hall, Hb. cbn [app orb].
    now rewrite (css_loop_keeps _ _ _ _ _ _ H3), Hall, Hb.
  - destruct (forallb (fun r => negb (selects_body_or_html r) || has_block r) rules);
      [|reflexivity].
    now rewrite (css_loop_keeps _ _ _ _ _ _ H2), Hall, Hb.
Qed.


(** For a decimal literal with at most 15 fractional digits the float
    comparison is the comparison of the number it denotes with 1.2. *)
Lemma float_lt_1_2_decimal (s : string) (n : Z) (k : nat) :
  parse_decimal s = Some (n, k) -> (k <= 15)%nat ->
  (float_lt_1_2 s = Some true <-> (10 * n < 12 * 10 ^ Z.of_nat k)%Z).
Proof.
  intros Hp Hk. unfold float_lt_1_2. rewrite Hp.
  assert (Hcases : In k (seq 0 16)) by (apply in_seq; lia).
  cbn in Hcases.
  split.
  - intros H. injection H as H. apply Z.leb_le in H.
    repeat (destruct Hcases as [<-|Hcases]; [cbn in *; lia|]). destruct Hcases.
  - intros H. f_equal. apply Z.leb_le.
    repeat (destruct Hcases as [<-|Hcases]; [cbn in *; lia|]). destruct Hcases.
Qed.

(* --------------------------------------------------------------------- *)
(** ** The reporter along the pipeline                                    *)
(* --------------------------------------------------------------------- *)

Lemma only_logs_refl r : only_logs r r.
Proof. split; [reflexivity | apply prefix_of_refl || reflexivity]. Qed.

Lemma only_logs_trans r1 r2 r3 : only_logs r1 r2 -> only_logs r2 r3 -> only_logs r1 r3.
Proof. intros [H1 H2] [H3 H4]. split; [congruence | etrans; eauto]. Qed.

Lemma only_logs_log_change r p s : only_logs r (log_change r p s).
Proof. split; [reflexivity | apply prefix_app_r; reflexivity]. Qed.

Lemma only_logs_fold {L} (F : World * Reporter * L -> Path -> World * Reporter * L) :
  (forall st p, only_logs (snd (fst st)) (snd (fst (F st p)))) ->
  forall l st, only_logs (snd (fst st)) (snd (fst (fold_left F l st))).
Proof.
  intros HF l. induction l as [|p l IH]; intros st; cbn [fold_left].
  - apply only_logs_refl.
  - eapply only_logs_trans; [apply HF | apply IH].
Qed.

Ltac file_only_logs :=
  intros [[w r] l] p; cbn [fst snd];
  repeat (case_match; cbn [fst snd]; subst);
  first [apply only_logs_refl | apply only_logs_log_change].

Lemma headings_file_only_logs st p : only_logs (snd (fst st)) (snd (fst (headings_file st p))).
Proof. revert st p. unfold headings_file. file_only_logs. Qed.
Lemma paragraphs_file_only_logs st p : only_logs (snd (fst st)) (snd (fst (paragraphs_file st p))).
Proof. revert st p. unfold paragraphs_file. file_only_logs. Qed.
Lemma lists_file_only_logs st p : only_logs (snd (fst st)) (snd (fst (lists_file st p))).
Proof. revert st p. unfold lists_file. file_only_logs. Qed.
Lemma breaks_file_only_logs st p : only_logs (snd (fst st)) (snd (fst (breaks_file st p))).
Proof. revert st p. unfold breaks_file. file_only_logs. Qed.
Lemma images_file_only_logs st p : only_logs (snd (fst st)) (snd (fst (images_file st p))).
Proof. revert st p. unfold images_file. file_only_logs. Qed.
Lemma css_safe_file_only_logs st p : only_logs (snd (fst st)) (snd (fst (css_safe_file st p))).
Proof. revert st p. unfold css_safe_file. file_only_logs. Qed.
Lemma css_aggressive_file_only_logs st p :
  only_logs (snd (fst st)) (snd (fst (css_aggressive_file st p))).
Proof. revert st p. unfold css_aggressive_file. file_only_logs. Qed.

Lemma extends_with_only_logs keys r r' : only_logs r r' -> extends_with keys r r'.
Proof. intros [Hc Hl]. split; [intros; now rewrite Hc | exact Hl]. Qed.

Lemma extends_with_increment keys r r' k n :
  k ∈ keys -> extends_with keys r r' -> extends_with keys r (increment r' k n).
Proof.
  intros Hk [Hc Hl]. split; [|exact Hl].
  intros k' Hk'. cbn. rewrite lookup_insert_ne; [now apply Hc|].
  intros ->. contradiction.
Qed.

Lemma extends_with_trans keys r1 r2 r3 :
  extends_with keys r1 r2 -> extends_with keys r2 r3 -> extends_with keys r1 r3.
Proof.
  intros [H1 H2] [H3 H4]. split; [|etrans; eauto].
  intros k Hk. now rewrite H3, H1.
Qed.

Ltac not_a_key :=
  let Hin := fresh "Hin" in
  unfold safe_keys, xhtml_keys; intros Hin;
  repeat (apply elem_of_cons in Hin as [Hin|Hin]; [discriminate|]);
  now apply elem_of_nil in Hin.

Ltac is_a_key := unfold safe_keys, xhtml_keys; repeat constructor.

Ltac rule_extends file_lemma :=
  intros book [w r];
  match goal with
  | |- context [fold_left ?F ?l ?st] =>
      pose proof (only_logs_fold F file_lemma l st) as Hfold;
      destruct (fold_left F l st) as [[w' r'] loc]
  end;
  cbn [fst snd] in *;
  repeat (apply extends_with_increment; [assumption|]);
  now apply extends_with_only_logs.

(** Each rule touches its own counters only. *)
Lemma normalize_headings_extends keys book st :
  "headings.converted_fake_headings" ∈ keys -> "headings.fixed_nesting" ∈ keys ->
  extends_with keys (snd st) (snd (normalize_headings book st)).
Proof.
  intros K1 K2. revert book st. unfold normalize_headings.
  rule_extends headings_file_only_logs.
Qed.

Lemma normalize_paragraphs_extends keys book st :
  "paragraphs.converted_divs" ∈ keys -> "paragraphs.removed_br_breaks" ∈ keys ->
  extends_with keys (snd st) (snd (normalize_paragraphs_and_indents book st)).
Proof.
  intros K1 K2. revert book st. unfold normalize_paragraphs_and_indents.
  rule_extends paragraphs_file_only_logs.
Qed.

Lemma normalize_lists_extends keys book st :
  "lists.converted_paragraphs" ∈ keys ->
  extends_with keys (snd st) (snd (normalize_lists book st)).
Proof.
  intros K1. revert book st. unfold normalize_lists. rule_extends lists_file_only_logs.
Qed.

Lemma normalize_context_breaks_extends keys book st :
  "breaks.normalized_scene_breaks" ∈ keys -> "breaks.removed_page_breaks" ∈ keys ->
  extends_with keys (snd st) (snd (normalize_context_breaks book st)).
Proof.
  intros K1 K2. revert book st. unfold normalize_context_breaks.
  rule_extends breaks_file_only_logs.
Qed.

Lemma normalize_images_extends keys book st :
  "images.added_alt" ∈ keys ->
  extends_with keys (snd st) (snd (normalize_images book st)).
Proof.
  intros K1. revert book st. unfold normalize_images. rule_extends images_file_only_logs.
Qed.

Lemma simplify_css_safe_extends `{PathOps} keys book st :
  "css.removed_properties" ∈ keys -> "css.modified_properties" ∈ keys ->
  extends_with keys (snd st) (snd (simplify_css_safe book st)).
Proof.
  intros K1 K2. revert book st. unfold simplify_css_safe.
  rule_extends css_safe_file_only_logs.
Qed.

Lemma extends_with_refl keys r : extends_with keys r r.
Proof. split; reflexivity. Qed.

(** The rules for content documents touch the counters of [xhtml_keys]. *)
Lemma xhtml_rules_extend keys book st :
  (forall k, k ∈ xhtml_keys -> k ∈ keys) ->
  extends_with keys (snd st) (snd (apply_rules xhtml_rules book st)).
Proof.
  intros Hk. unfold apply_rules, xhtml_rules. cbn [fold_left].
  eapply extends_with_trans; [|apply normalize_images_extends; apply Hk; is_a_key].
  eapply extends_with_trans;
    [|apply normalize_context_breaks_extends; apply Hk; is_a_key].
  eapply extends_with_trans; [|apply normalize_lists_extends; apply Hk; is_a_key].
  eapply extends_with_trans; [|apply normalize_paragraphs_extends; apply Hk; is_a_key].
  apply normalize_headings_extends; apply Hk; is_a_key.
Qed.

Lemma safe_is_xhtml_then_css `{PathOps} book st :
  apply_rules SAFE_RULES book st = simplify_css_safe book (apply_rules xhtml_rules book st).
Proof. reflexivity. Qed.

(** Every counter the Safe rules touch is one of [safe_keys]. *)
Lemma safe_rules_extend `{PathOps} book st :
  extends_with safe_keys (snd st) (snd (apply_rules SAFE_RULES book st)).
Proof.
  rewrite safe_is_xhtml_then_css.
  eapply extends_with_trans; [|apply simplify_css_safe_extends; is_a_key].
  apply xhtml_rules_extend. intros k Hk. unfold safe_keys.
  apply elem_of_app. now left.
Qed.

(** The Aggressive run is the Safe run followed by the extra rule. *)
Lemma aggressive_is_safe_then_css `{PathOps} book w :
  run_repair book w aggressive = simplify_css_aggressive book (run_repair book w safe).
Proof.
  unfold run_repair, AGGRESSIVE_RULES, apply_rules. now rewrite fold_left_app.
Qed.

(** The extra rule adds its two counters and change-log entries. *)
Lemma simplify_css_aggressive_reporter `{PathOps} book w r :
  exists r' n,
    only_logs r r'
    /\ snd (simplify_css_aggressive book (w, r))
       = increment (increment r' "css.removed_font_families" n) "css.removed_font_faces" 0.
Proof.
  unfold simplify_css_aggressive.
  pose proof (only_logs_fold css_aggressive_file css_aggressive_file_only_logs
                (get_css_files book w) (w, r, 0)) as Hfold.
  destruct (fold_left css_aggressive_file (get_css_files book w) (w, r, 0)) as [[w' r'] n].
  exists r', n. split; [exact Hfold | reflexivity].
Qed.

(** C7: on the same input, every counter of the Safe run is a counter of
    the Aggressive run with the same value, and the change log of the Safe
    run is the beginning of the change log of the Aggressive run; the
    Aggressive rule list is the Safe list followed by the extra CSS rule. *)
Theorem C7_safe_is_part_of_aggressive `{PathOps} (book : EpubBook) (w : World) :
  let rs := snd (run_repair book w safe) in
  let ra := snd (run_repair book w aggressive) in
  counters rs ⊆ counters ra
  /\ changes rs `prefix_of` changes ra
  /\ AGGRESSIVE_RULES = SAFE_RULES ++ [simplify_css_aggressive].
Proof.
  cbv zeta. rewrite aggressive_is_safe_then_css.
  pose proof (safe_rules_extend book (w, new_reporter)) as [Hkeys _].
  fold (run_repair book w safe) in Hkeys.
  destruct (run_repair book w safe) as [ws rs]. cbn [snd] in *.
  destruct (simplify_css_aggressive_reporter book ws rs) as (r' & n & [Hc Hl] & ->).
  split; [|split; [exact Hl | reflexivity]].
  cbn [increment counters]. rewrite Hc.
  assert (Hff : counters rs !! "css.removed_font_families" = None).
  { rewrite Hkeys; [apply lookup_empty | not_a_key]. }
  assert (Hfa : counters rs !! "css.removed_font_faces" = None).
  { rewrite Hkeys; [apply lookup_empty | not_a_key]. }
  etrans; [apply (insert_subseteq (counters rs) "css.removed_font_families"); exact Hff|].
  apply insert_subseteq. rewrite lookup_insert_ne; [exact Hfa | discriminate].
Qed.

(* --------------------------------------------------------------------- *)
(** ** The pipeline on example books                                      *)
(* --------------------------------------------------------------------- *)

(** C9: a book with two content documents, the first with a fake heading
    (respectively a bullet list), the second with nothing to repair.  The
    heading rule (respectively the list rule) makes no edit in the second
    document, and yet writes it back and logs a change for it, because the
    write-back test reads counters that are not reset between files. *)
Theorem C9_unchanged_document_is_written_and_logged :
  let doc2 := load plain in
  (forall l, headings_body (lxml.root doc2) (lxml.arena doc2, l) = (inr tt, (lxml.arena doc2, l)))
  /\ (forall l, lists_body (lxml.root doc2) (lxml.arena doc2, l) = (inr tt, (lxml.arena doc2, l)))
  /\ (let '(w', r) :=
        normalize_headings (book_of ["ch1.xhtml"; "ch2.xhtml"])
          (world_of [("ch1.xhtml", fake_heading); ("ch2.xhtml", plain)], new_reporter) in
      written w' = ["ch1.xhtml"; "ch2.xhtml"]
      /\ changes r
         = [mkChange "ch1.xhtml" "Converted 1 fake headings, fixed 0 nesting issues" None;
            mkChange "ch2.xhtml" "Converted 1 fake headings, fixed 0 nesting issues" None]
      /\ markup_at w' "ch2.xhtml" = Some plain)
  /\ (let '(w', r) :=
        normalize_lists (book_of ["ch1.xhtml"; "ch2.xhtml"])
          (world_of [("ch1.xhtml", dash_list); ("ch2.xhtml", plain)], new_reporter) in
      written w' = ["ch1.xhtml"; "ch2.xhtml"]
      /\ changes r
         = [mkChange "ch1.xhtml" "Created 1 semantic lists" None;
            mkChange "ch2.xhtml" "Created 1 semantic lists" None]
      /\ markup_at w' "ch2.xhtml" = Some plain).
Proof.
  cbv zeta. split; [|split; [|split]].
  - intros l. vm_compute. reflexivity.
  - intros l. vm_compute. reflexivity.
  - vm_compute. repeat split.
  - vm_compute. repeat split.
Qed.


(* --------------------------------------------------------------------- *)
(** ** A second Safe run and the stylesheets                              *)
(* --------------------------------------------------------------------- *)

Lemma filter_all {A} (f : A -> bool) (l : list A) :
  forallb f l = true -> List.filter f l = l.
Proof.
  induction l as [|x l IH]; [reflexivity|]. cbn.
  intros H. apply andb_prop in H as [Hx Hl]. now rewrite Hx, IH.
Qed.

Lemma filter_filter_and {A} (f g : A -> bool) (l : list A) :
  List.filter g (List.filter f l) = List.filter (fun x => f x && g x) l.
Proof.
  induction l as [|x l IH]; [reflexivity|]. cbn.
  destruct (f x); cbn; [destruct (g x)|]; now rewrite IH.
Qed.

Lemma path_exists_write w p c q :
  path_exists w p = true -> path_exists (write_file w p c) q = path_exists w q.
Proof.
  unfold path_exists, write_file. cbn [files]. intros Hp.
  destruct (decide (p = q)) as [->|Hne].
  - rewrite lookup_insert_eq. rewrite Hp. apply bool_decide_eq_true. eauto.
  - now rewrite lookup_insert_ne.
Qed.

Lemma fold_left_ext_eq {A B} (f g : A -> B -> A) (l : list B) :
  (forall a x, f a x = g a x) -> forall a, fold_left f l a = fold_left g l a.
Proof.
  intros Hfg. induction l as [|x l IH]; intros a; cbn; [reflexivity|].
  now rewrite Hfg, IH.
Qed.

Lemma get_css_files_ext `{PathOps} book w w' :
  (forall q, path_exists w' q = path_exists w q) ->
  get_css_files book w' = get_css_files book w.
Proof.
  intros He. unfold get_css_files. apply fold_left_ext_eq.
  intros a x. unfold resolve_path. now rewrite He.
Qed.

Lemma same_stylesheets_refl w : same_stylesheets w w.
Proof. split; intros; reflexivity. Qed.

Lemma same_stylesheets_trans w1 w2 w3 :
  same_stylesheets w1 w2 -> same_stylesheets w2 w3 -> same_stylesheets w1 w3.
Proof.
  intros [H1 H2] [H3 H4]. split.
  - intros q. now rewrite H3, H1.
  - intros q rules. now rewrite H4, H2.
Qed.

Lemma same_stylesheets_write_xhtml w p doc doc' :
  parse_xhtml w p = inr doc -> same_stylesheets w (write_file w p (XhtmlFile doc')).
Proof.
  unfold parse_xhtml. intros Hp.
  destruct (files w !! p) as [[d|rs]|] eqn:Hf; try discriminate.
  split.
  - intros q. apply path_exists_write. unfold path_exists. rewrite Hf.
    apply bool_decide_eq_true. eauto.
  - intros q rules. unfold write_file. cbn [files].
    destruct (decide (p = q)) as [Heq|Hne]; [subst q|].
    + rewrite lookup_insert_eq. split; [discriminate | congruence].
    + now rewrite lookup_insert_ne.
Qed.

Lemma same_stylesheets_fold {L} (F : World * Reporter * L -> Path -> World * Reporter * L) :
  (forall st p, same_stylesheets (fst (fst st)) (fst (fst (F st p)))) ->
  forall l st, same_stylesheets (fst (fst st)) (fst (fst (fold_left F l st))).
Proof.
  intros HF l. induction l as [|p l IH]; intros st; cbn [fold_left].
  - apply same_stylesheets_refl.
  - eapply same_stylesheets_trans; [apply HF | apply IH].
Qed.

Ltac file_same_stylesheets :=
  intros [[w r] l] p; cbn [fst snd];
  repeat (case_match; cbn [fst snd]; subst);
  first [ apply same_stylesheets_refl
        | eapply same_stylesheets_write_xhtml; eassumption ].

Lemma headings_file_same_stylesheets st p :
  same_stylesheets (fst (fst st)) (fst (fst (headings_file st p))).
Proof. revert st p. unfold headings_file. file_same_stylesheets. Qed.
Lemma paragraphs_file_same_stylesheets st p :
  same_stylesheets (fst (fst st)) (fst (fst (paragraphs_file st p))).
Proof. revert st p. unfold paragraphs_file. file_same_stylesheets. Qed.
Lemma lists_file_same_stylesheets st p :
  same_stylesheets (fst (fst st)) (fst (fst (lists_file st p))).
Proof. revert st p. unfold lists_file. file_same_stylesheets. Qed.
Lemma breaks_file_same_stylesheets st p :
  same_stylesheets (fst (fst st)) (fst (fst (breaks_file st p))).
Proof. revert st p. unfold breaks_file. file_same_stylesheets. Qed.
Lemma images_file_same_stylesheets st p :
  same_stylesheets (fst (fst st)) (fst (fst (images_file st p))).
Proof. revert st p. unfold images_file. file_same_stylesheets. Qed.

Ltac rule_same_stylesheets file_lemma :=
  intros book [w r];
  match goal with
  | |- context [fold_left ?F ?l ?st] =>
      let Hfold := fresh "Hfold" in
      pose proof (same_stylesheets_fold F file_lemma l st) as Hfold;
      destruct (fold_left F l st) as [[? ?] ?];
      exact Hfold
  end.

Lemma normalize_headings_same_stylesheets book st :
  same_stylesheets (fst st) (fst (normalize_headings book st)).
Proof.
  revert book st. unfold normalize_headings.
  rule_same_stylesheets headings_file_same_stylesheets.
Qed.
Lemma normalize_paragraphs_same_stylesheets book st :
  same_stylesheets (fst st) (fst (normalize_paragraphs_and_indents book st)).
Proof.
  revert book st. unfold normalize_paragraphs_and_indents.
  rule_same_stylesheets paragraphs_file_same_stylesheets.
Qed.
Lemma normalize_lists_same_stylesheets book st :
  same_stylesheets (fst st) (fst (normalize_lists book st)).
Proof.
  revert book st. unfold normalize_lists.
  rule_same_stylesheets lists_file_same_stylesheets.
Qed.
Lemma normalize_context_breaks_same_stylesheets book st :
  same_stylesheets (fst st) (fst (normalize_context_breaks book st)).
Proof.
  revert book st. unfold normalize_context_breaks.
  rule_same_stylesheets breaks_file_same_stylesheets.
Qed.
Lemma normalize_images_same_stylesheets book st :
  same_stylesheets (fst st) (fst (normalize_images book st)).
Proof.
  revert book st. unfold normalize_images.
  rule_same_stylesheets images_file_same_stylesheets.
Qed.

(** The rules for content documents leave the stylesheets alone. *)
Lemma xhtml_rules_same_stylesheets book st :
  same_stylesheets (fst st) (fst (apply_rules xhtml_rules book st)).
Proof.
  unfold apply_rules, xhtml_rules. cbn [fold_left].
  eapply same_stylesheets_trans; [|apply normalize_images_same_stylesheets].
  eapply same_stylesheets_trans; [|apply normalize_context_breaks_same_stylesheets].
  eapply same_stylesheets_trans; [|apply normalize_lists_same_stylesheets].
  eapply same_stylesheets_trans; [|apply normalize_paragraphs_same_stylesheets].
  apply normalize_headings_same_stylesheets.
Qed.

(** One file of the Safe cleanup: the world and the count stay, the
    reporter may get a change record for an error. *)
Lemma css_safe_file_quiet w r n p :
  exists r', css_safe_file (w, r, n) p = (w, r', n) /\ only_logs r r'.
Proof.
  unfold css_safe_file.
  destruct (path_exists w p); cbn [negb]; [|eexists; split; [reflexivity|apply only_logs_refl]].
  destruct (read_css w p) as [e|rules].
  - eexists; split; [reflexivity | apply only_logs_log_change].
  - rewrite css_safe_body_keeps. destruct (forallb has_block rules).
    + eexists; split; [reflexivity | apply only_logs_refl].
    + eexists; split; [reflexivity | apply only_logs_log_change].
Qed.

Lemma css_safe_fold_quiet l : forall w r n,
  exists r', fold_left css_safe_file l (w, r, n) = (w, r', n) /\ only_logs r r'.
Proof.
  induction l as [|p l IH]; intros w r n; cbn [fold_left].
  - exists r. split; [reflexivity | apply only_logs_refl].
  - destruct (css_safe_file_quiet w r n p) as (r1 & -> & Hr1).
    destruct (IH w r1 n) as (r' & -> & Hr').
    exists r'. split; [reflexivity | eapply only_logs_trans; eauto].
Qed.

(** The Safe cleanup changes no file and reports zero for both of its
    counters. *)
Lemma simplify_css_safe_quiet `{PathOps} book w r :
  exists r',
    only_logs r r'
    /\ simplify_css_safe book (w, r)
       = (w, increment (increment r' "css.removed_properties" 0) "css.modified_properties" 0).
Proof.
  unfold simplify_css_safe.
  destruct (css_safe_fold_quiet (get_css_files book w) w r 0) as (r' & -> & Hr').
  exists r'. split; [exact Hr' | reflexivity].
Qed.


(* --------------------------------------------------------------------- *)
(** ** The cleanup on parsed stylesheets *)
(* --------------------------------------------------------------------- *)

(** C6: the cleanup looks in [rule.content] for items that have a name
    and a value, and the content the parser hands out is a list of
    component values, none of which has both.  So no Safe filter selects
    any item, for any stylesheet; the Aggressive filter selects the
    function blocks named font-family and nothing else.  The Safe cleanup
    changes no file and counts nothing, in any book; the tests on the
    value do see an absolute size, a line height below 1.2 and a flex
    display, but the item that has the value has no name.  On the rule
    [body { font-size: 12px; line-height: 1.0; font-family: serif; }]
    both modes leave the stylesheet as it is, write nothing and report
    0, where the claim has Safe mode drop font-size and line-height and
    Aggressive mode drop font-family as well.  What the loops do on other
    input: the Aggressive loop drops a function named font-family, and an
    at-rule without block ends the cleanup of its file with a
    [TypeError] that is logged. *)
Theorem C6_cleanup_drops_no_declaration `{PathOps} (book : EpubBook) (w : World) (r : Reporter) :
  (forall rule decl, safe_drops rule decl = false)
  /\ (forall decl,
        aggressive_drops decl
        = match decl with
          | FunctionBlock name _ => String.eqb name "font-family"
          | _ => false
          end)
  /\ _is_absolute_size (Token "ident" "12px")
     && _is_fixed_line_height (Token "number" "1.0")
     && negb (_is_fixed_line_height (Token "number" "1.2"))
     && _is_flex_or_grid (Token "ident" "inline-flex")
     && negb (has_name (Token "ident" "line-height") "line-height") = true
  /\ fst (simplify_css_safe book (w, r)) = w
  /\ counters (snd (run_repair book w safe)) !! "css.removed_properties" = Some 0
  /\ same_stylesheets w (fst (run_repair book w safe))
  /\ (let '(w', r') := @run_repair example_paths styled_book (styled_world [body_rule]) safe in
      w' = styled_world [body_rule]
      /\ counters r' !! "css.removed_properties" = Some 0
      /\ changes r' = [])
  /\ (let '(w', r') :=
        @run_repair example_paths styled_book (styled_world [body_rule]) aggressive in
      w' = styled_world [body_rule]
      /\ counters r' !! "css.removed_font_families" = Some 0
      /\ changes r' = [])
  /\ (let '(w', r') :=
        @run_repair example_paths styled_book (styled_world [function_rule]) aggressive in
      files w' !! "/epub/style.css" = Some (CssFile [function_rule_expected])
      /\ written w' = ["/epub/style.css"]
      /\ counters r' !! "css.removed_font_families" = Some 1
      /\ changes r'
         = [mkChange "/epub/style.css" "Removed 1 font-family declarations" None])
  /\ (let '(w', r') :=
        @run_repair example_paths styled_book (styled_world [import_rule; body_rule]) safe in
      w' = styled_world [import_rule; body_rule]
      /\ counters r' !! "css.removed_properties" = Some 0
      /\ changes r'
         = [mkChange "/epub/style.css"
              "Error processing CSS: object of type 'NoneType' has no len()" None]).
Proof.
  split; [apply safe_never_drops|].
  split; [intros []; reflexivity|].
  split; [vm_compute; reflexivity|].
  split.
  { destruct (simplify_css_safe_quiet book w r) as (r' & _ & ->). reflexivity. }
  assert (Hrun : counters (snd (run_repair book w safe)) !! "css.removed_properties" = Some 0
                 /\ same_stylesheets w (fst (run_repair book w safe))).
  { unfold run_repair. rewrite safe_is_xhtml_then_css.
    pose proof (xhtml_rules_same_stylesheets book (w, new_reporter)) as Hsame.
    pose proof (xhtml_rules_extend xhtml_keys book (w, new_reporter) (fun k Hk => Hk))
      as [Hkeys _].
    destruct (apply_rules xhtml_rules book (w, new_reporter)) as [wx rx].
    cbn [fst snd] in Hsame, Hkeys.
    destruct (simplify_css_safe_quiet book wx rx) as (r' & [Hc _] & ->).
    cbn [fst snd increment counters]. split; [|exact Hsame].
    rewrite lookup_insert_ne by discriminate. rewrite lookup_insert_eq, Hc.
    rewrite Hkeys; [reflexivity | not_a_key]. }
  destruct Hrun as [Hcount Hsame].
  split; [exact Hcount|]. split; [exact Hsame|].
  split; [vm_compute; repeat split|].
  split; [vm_compute; repeat split|].
  split; [vm_compute; repeat split|].
  vm_compute; repeat split.
Qed.

(* --------------------------------------------------------------------- *)
(** ** The element tree and the page-break pass *)
(* --------------------------------------------------------------------- *)

Section ArenaFrame.
Implicit Types (d : lxml.Arena) (e c q x : nat).

Lemma getparent_alter_children d i x (f : list nat -> list nat) :
  lxml.getparent (alter (fun y => lxml.set_children_ (f (lxml.children y)) y) i d) x
  = lxml.getparent d x.
Proof.
  unfold lxml.getparent. rewrite list_lookup_alter. case_decide; [subst|reflexivity].
  now destruct (d !! x).
Qed.

Lemma get_children_alter_parent d i x v :
  lxml.get_children (alter (lxml.set_parent_ v) i d) x = lxml.get_children d x.
Proof.
  unfold lxml.get_children. rewrite list_lookup_alter. case_decide; [subst|reflexivity].
  now destruct (d !! x).
Qed.

Lemma getparent_alter_parent d i x v :
  lxml.getparent (alter (lxml.set_parent_ v) i d) x
  = if decide (i = x) then (d !! x) ≫= (fun _ => v) else lxml.getparent d x.
Proof.
  unfold lxml.getparent. rewrite list_lookup_alter. case_decide; [subst|reflexivity].
  now destruct (d !! x).
Qed.

Lemma get_children_alter_children d i x (f : list nat -> list nat) :
  lxml.get_children (alter (fun y => lxml.set_children_ (f (lxml.children y)) y) i d) x
  = if decide (i = x) then from_option (fun y => f (lxml.children y)) [] (d !! x)
    else lxml.get_children d x.
Proof.
  unfold lxml.get_children. rewrite list_lookup_alter. case_decide; [subst|reflexivity].
  now destruct (d !! x).
Qed.

(** Detaching [c] clears its parent and touches no other parent. *)
Lemma getparent_detach d c x :
  lxml.getparent (lxml.detach d c) x
  = if decide (x = c) then None else lxml.getparent d x.
Proof.
  unfold lxml.detach. destruct (lxml.getparent d c) as [q|] eqn:Hq.
  - rewrite getparent_alter_parent.
    destruct (decide (c = x)) as [->|Hne].
    + rewrite decide_True by done.
      match goal with |- ?o ≫= _ = None => now destruct o end.
    + rewrite decide_False by congruence. apply getparent_alter_children.
  - case_decide; [now subst | reflexivity].
Qed.

(** Detaching [c] takes it out of the child list of its parent and
    leaves the other child lists as they are. *)
Lemma get_children_detach d c x :
  lxml.get_children (lxml.detach d c) x
  = if decide (lxml.getparent d c = Some x)
    then lxml.without c (lxml.get_children d x)
    else lxml.get_children d x.
Proof.
  unfold lxml.detach. destruct (lxml.getparent d c) as [q|] eqn:Hq.
  - rewrite get_children_alter_parent, get_children_alter_children.
    destruct (decide (q = x)) as [->|Hne].
    + rewrite decide_True by done. unfold lxml.get_children.
      destruct (d !! x); reflexivity.
    + rewrite decide_False by congruence. reflexivity.
  - rewrite decide_False by discriminate. reflexivity.
Qed.
End ArenaFrame.
Lemma is_before_chapter_retained d i p : is_before_chapter d i p = retained d i p.
Proof.
  unfold is_before_chapter, retained, next_is_h1_h2, next_has_keyword,
    among_first_three_children, is_h1_h2.
  cbv zeta.
  destruct (lxml.getnext d p) as [n|]; cbn [negb andb orb].
  - destruct (Py.mem (lxml.get_tag d n) ["h1"; "h2"]); cbn [negb andb orb].
    + destruct (has_chapter_keyword d n); cbn [negb andb orb]; [reflexivity|].
      destruct (i <? 3)%nat; cbn [negb andb orb]; [reflexivity|].
      destruct (lxml.getparent d p) as [q|]; [|reflexivity].
      destruct (lxml.index_in p (lxml.get_children d q)) as [k|]; [|reflexivity].
      rewrite andb_true_r. now destruct (k <? 3)%nat.
    + destruct (lxml.getparent d p) as [q|]; [|reflexivity].
      destruct (lxml.index_in p (lxml.get_children d q)) as [k|]; [|reflexivity].
      now rewrite andb_false_r.
  - destruct (lxml.getparent d p) as [q|]; [|reflexivity].
    destruct (lxml.index_in p (lxml.get_children d q)) as [k|]; [|reflexivity].
    now rewrite andb_false_r.
Qed.

(** What [collect_page_breaks] collects. *)
Lemma collect_page_breaks_spec d p l : forall k,
  In p (collect_page_breaks d k l)
  <-> exists j, l !! j = Some p /\ is_page_break d p = true
                /\ is_before_chapter d (k + j) p = false.
Proof.
  induction l as [|x l IH]; intros k; cbn [collect_page_breaks].
  - split; [intros [] | intros (j & Hj & _); destruct j; discriminate].
  - assert (Hrest : In p (collect_page_breaks d (S k) l)
                    <-> exists j, l !! j = Some p /\ is_page_break d p = true
                                  /\ is_before_chapter d (k + S j) p = false).
    { rewrite IH. split; intros (j & H1 & H2 & H3); exists j;
        (split; [exact H1|split; [exact H2|]]);
        [replace (k + S j) with (S k + j) by lia | replace (S k + j) with (k + S j) by lia];
        exact H3. }
    destruct (is_page_break d x && negb (is_before_chapter d k x)) eqn:Hx.
    + cbn [In]. rewrite Hrest. split.
      * intros [<-|(j & H1 & H2 & H3)].
        -- apply andb_prop in Hx as [H1 H2]. apply negb_true_iff in H2.
           exists 0. rewrite Nat.add_0_r. auto.
        -- exists (S j). auto.
      * intros ([|j] & H1 & H2 & H3); [left; now injection H1 | right; eauto].
    + rewrite Hrest. split.
      * intros (j & H1 & H2 & H3). exists (S j). auto.
      * intros ([|j] & H1 & H2 & H3); [|eauto].
        injection H1 as ->. rewrite Nat.add_0_r in H3. rewrite H2, H3 in Hx. discriminate.
Qed.
Lemma remove_page_breaks_cons x rest (d : lxml.Arena) (l : BreaksLocals) :
  remove_page_breaks (x :: rest) (d, l)
  = match lxml.getparent d x with
    | Some _ =>
        remove_page_breaks rest
          (lxml.detach d x,
           mkBreaksLocals (scene_breaks_created l) (S (page_breaks_removed l)) true)
    | None => remove_page_breaks rest (d, l)
    end.
Proof.
  unfold remove_page_breaks at 1. cbn [for_each]. unfold bind at 1.
  unfold bind at 1. unfold ask at 1. cbn [fst snd].
  destruct (lxml.getparent d x) as [q|] eqn:Hq; [|reflexivity].
  unfold bind, tree_try, locals_upd, lxml.remove, lxml.contains_child. cbn [fst snd].
  rewrite bool_decide_eq_true_2 by exact Hq. reflexivity.
Qed.

Lemma bool_decide_elem_cons_ne (y x : nat) (rest : list nat) :
  y <> x -> bool_decide (y ∈ x :: rest) = bool_decide (y ∈ rest).
Proof.
  intros Hne. apply bool_decide_ext. rewrite elem_of_cons.
  split; [intros [->|H]; [contradiction | exact H] | auto].
Qed.

(** The removal loop never raises; it detaches exactly the listed
    paragraphs and counts those that had a parent. *)
Lemma remove_page_breaks_spec (L : list nat) :
  NoDup L -> forall (d : lxml.Arena) (l : BreaksLocals),
  exists d' changed,
    remove_page_breaks L (d, l)
    = (inr tt, (d', mkBreaksLocals (scene_breaks_created l)
                      (page_breaks_removed l + length (with_parent d L)) changed))
    /\ (forall x, lxml.getparent d' x = if bool_decide (x ∈ L) then None else lxml.getparent d x)
    /\ (forall q, lxml.get_children d' q
                  = List.filter
                      (fun c => negb (bool_decide (c ∈ L)
                                      && bool_decide (lxml.getparent d c = Some q)))
                      (lxml.get_children d q)).
Proof.
  induction 1 as [|x rest Hx Hnd IH]; intros d l.
  - exists d, (breaks_changed l). cbn. rewrite Nat.add_0_r. destruct l. repeat split.
    intros q. symmetry. apply filter_all. apply forallb_forall. intros c _.
    rewrite bool_decide_eq_false_2; [reflexivity | apply not_elem_of_nil].
  - rewrite remove_page_breaks_cons.
    assert (Hother : forall y, y ∈ rest -> y <> x) by (intros y Hy ->; contradiction).
    destruct (lxml.getparent d x) as [q0|] eqn:Hq0.
    + destruct (IH (lxml.detach d x)
                  (mkBreaksLocals (scene_breaks_created l) (S (page_breaks_removed l)) true))
        as (d' & ch & Hrun & Hpar & Hkids).
      exists d', ch. split; [|split].
      * rewrite Hrun. cbn [scene_breaks_created page_breaks_removed].
        f_equal. f_equal. f_equal. unfold with_parent. cbn [List.filter].
        rewrite Hq0. rewrite bool_decide_eq_true_2 by eauto. cbn [length].
        rewrite <- Nat.add_succ_comm. f_equal. f_equal.
        apply filter_ext_in. intros y Hy. rewrite getparent_detach.
        rewrite decide_False; [reflexivity|]. apply Hother. now apply list_elem_of_In.
      * intros y. rewrite Hpar, getparent_detach.
        destruct (decide (y = x)) as [->|Hne].
        -- rewrite (bool_decide_eq_true_2 (x ∈ x :: rest)) by constructor.
           now destruct (bool_decide (x ∈ rest)).
        -- assert (Hiff : bool_decide (y ∈ x :: rest) = bool_decide (y ∈ rest)).
           { now apply bool_decide_elem_cons_ne. }
           now rewrite Hiff.
      * intros q. rewrite Hkids, get_children_detach, Hq0.
        destruct (decide (Some q0 = Some q)) as [[= ->]|Hne].
        -- unfold lxml.without. rewrite filter_filter_and. apply filter_ext. intros c.
           rewrite getparent_detach.
           destruct (Nat.eqb_spec c x) as [->|Hcx]; cbn [negb andb].
           ++ rewrite (bool_decide_eq_true_2 (x ∈ x :: rest)) by constructor.
              rewrite (bool_decide_eq_true_2 (lxml.getparent d x = Some q)) by exact Hq0.
              reflexivity.
           ++ rewrite decide_False by exact Hcx.
              assert (Hiff : bool_decide (c ∈ x :: rest) = bool_decide (c ∈ rest)).
              { now apply bool_decide_elem_cons_ne. }
              now rewrite Hiff.
        -- apply filter_ext. intros c. rewrite getparent_detach.
           destruct (decide (c = x)) as [->|Hcx].
           ++ rewrite (bool_decide_eq_false_2 (x ∈ rest)) by exact Hx. cbn [andb negb].
              rewrite (bool_decide_eq_false_2 (lxml.getparent d x = Some q)) by congruence.
              now rewrite andb_false_r.
           ++ assert (Hiff : bool_decide (c ∈ x :: rest) = bool_decide (c ∈ rest)).
              { now apply bool_decide_elem_cons_ne. }
              now rewrite Hiff.
    + destruct (IH d l) as (d' & ch & Hrun & Hpar & Hkids).
      exists d', ch. split; [|split].
      * rewrite Hrun. unfold with_parent. cbn [List.filter]. rewrite Hq0.
        rewrite bool_decide_eq_false_2; [reflexivity|]. intros [? ?]; discriminate.
      * intros y. rewrite Hpar.
        destruct (decide (y = x)) as [->|Hne].
        -- rewrite (bool_decide_eq_true_2 (x ∈ x :: rest)) by constructor.
           rewrite Hq0. now destruct (bool_decide (x ∈ rest)).
        -- assert (Hiff : bool_decide (y ∈ x :: rest) = bool_decide (y ∈ rest)).
           { now apply bool_decide_elem_cons_ne. }
           now rewrite Hiff.
      * intros q. rewrite Hkids. apply filter_ext. intros c.
        destruct (decide (c = x)) as [->|Hcx].
        -- rewrite (bool_decide_eq_false_2 (x ∈ rest)) by exact Hx.
           rewrite (bool_decide_eq_false_2 (lxml.getparent d x = Some q)) by congruence.
           cbn [andb negb]. now rewrite andb_false_r.
        -- assert (Hiff : bool_decide (c ∈ x :: rest) = bool_decide (c ∈ rest)).
           { now apply bool_decide_elem_cons_ne. }
           now rewrite Hiff.
Qed.
(** A paragraph that holds only a no-break space is an empty paragraph,
    since [str.strip()] removes U+00A0: it is a page break like the empty
    paragraph after it, and both are removed and counted. *)
Lemma no_break_space_paragraph_is_a_page_break :
  let '(w', r) := run_rule_on normalize_context_breaks nbsp_break in
  markup_at w' "ch1.xhtml"
  = Some (page [leaf "p" [] (Some "a"); leaf "p" [] (Some "b"); leaf "p" [] (Some "c");
                leaf "p" [] (Some "after")])
  /\ counters r !! "breaks.removed_page_breaks" = Some 2.
Proof. vm_compute. split; reflexivity. Qed.

(** C4, counterexample: an empty paragraph that is the fourth child of
    [body] and the first paragraph of the document, directly before an
    [h2] without keyword.  The stated rule does not keep it; the code
    does, because it is among the first three paragraphs of the document. *)
Lemma C4_early_paragraph_is_kept : ~ retention_rule_as_claimed (load early_break).
Proof.
  intros H. specialize (H 0 5 eq_refl eq_refl).
  vm_compute in H. destruct H as [_ H]. exact (H eq_refl).
Qed.

Lemma collect_page_breaks_In d k l p : In p (collect_page_breaks d k l) -> In p l.
Proof. rewrite collect_page_breaks_spec. intros (j & Hj & _). apply list_elem_of_In. eapply list_elem_of_lookup_2; eauto. Qed.

Lemma collect_page_breaks_NoDup d l : forall k, NoDup l -> NoDup (collect_page_breaks d k l).
Proof.
  induction l as [|x l IH]; intros k Hnd; cbn [collect_page_breaks]; [constructor|].
  apply NoDup_cons in Hnd as [Hx Hl].
  destruct (is_page_break d x && negb (is_before_chapter d k x)); [|now apply IH].
  apply NoDup_cons. split; [|now apply IH].
  intros Hin. apply Hx. apply list_elem_of_In. eapply collect_page_breaks_In.
  apply list_elem_of_In. exact Hin.
Qed.

(** C4, amended: the page-break pass never fails.  A candidate found at
    position [i] of the document's paragraphs is kept, with its parent and
    its place among the children, exactly when it is directly followed by
    an h1 or h2 and that heading's text holds a keyword, or the candidate
    is among the first three paragraphs of the document, or among the first
    three children of its parent.  Every other candidate is detached from
    its parent, and the counter grows by the number of removed candidates
    that had a parent. *)
Theorem C4_page_break_retention (d : lxml.Arena) (root : nat) (l : BreaksLocals) (i p : nat) :
  let paragraphs := lxml.xpath_tag d root "p" in
  NoDup paragraphs ->
  paragraphs !! i = Some p ->
  is_page_break d p = true ->
  exists d' l',
    page_break_pass root (d, l) = (inr tt, (d', l'))
    /\ page_breaks_removed l'
       = page_breaks_removed l + length (with_parent d (collect_page_breaks d 0 paragraphs))
    /\ (retained d i p = true ->
        lxml.getparent d' p = lxml.getparent d p
        /\ forall q, In p (lxml.get_children d q) -> In p (lxml.get_children d' q))
    /\ (retained d i p = false ->
        lxml.getparent d' p = None
        /\ forall q, lxml.getparent d p = Some q -> ~ In p (lxml.get_children d' q)).
Proof.
  intros paragraphs Hnd Hi Hpb.
  set (L := collect_page_breaks d 0 paragraphs).
  destruct (remove_page_breaks_spec L (collect_page_breaks_NoDup d paragraphs 0 Hnd) d l)
    as (d' & ch & Hrun & Hpar & Hkids).
  assert (Hmem : In p L <-> retained d i p = false).
  { unfold L. rewrite collect_page_breaks_spec, <- is_before_chapter_retained. split.
    - intros (j & Hj & _ & Hb).
      now rewrite (NoDup_lookup paragraphs i j p Hnd Hi Hj).
    - intros Hb. exists i. auto. }
  exists d', (mkBreaksLocals (scene_breaks_created l)
                (page_breaks_removed l + length (with_parent d L)) ch).
  split; [|split; [reflexivity|split]].
  - unfold page_break_pass, bind, ask. cbn [fst snd]. exact Hrun.
  - intros Hret.
    assert (Hnot : ~ In p L) by (rewrite Hmem, Hret; discriminate).
    assert (Hb : bool_decide (p ∈ L) = false).
    { apply bool_decide_eq_false_2. now rewrite list_elem_of_In. }
    split; [now rewrite Hpar, Hb|].
    intros q Hq. rewrite Hkids. apply filter_In. split; [exact Hq | now rewrite Hb].
  - intros Hret.
    assert (Hin : In p L) by now apply Hmem.
    assert (Hb : bool_decide (p ∈ L) = true).
    { apply bool_decide_eq_true_2. now rewrite list_elem_of_In. }
    split; [now rewrite Hpar, Hb|].
    intros q Hq. rewrite Hkids. intros Hf. apply filter_In in Hf as [_ Hf].
    rewrite Hb, bool_decide_eq_true_2 in Hf by exact Hq. discriminate.
Qed.

(** The second page-break paragraph of [break_before_chapter]: it is
    followed by body text, so it is removed. *)
Lemma C4_page_break_retention_witness :
  let d := lxml.arena (load break_before_chapter) in
  exists d' l',
    page_break_pass 0 (d, mkBreaksLocals 0 0 false) = (inr tt, (d', l'))
    /\ page_breaks_removed l' = 0 + length (with_parent d (collect_page_breaks d 0 (lxml.xpath_tag d 0 "p")))
    /\ (retained d 4 7 = true ->
        lxml.getparent d' 7 = lxml.getparent d 7
        /\ forall q, In 7 (lxml.get_children d q) -> In 7 (lxml.get_children d' q))
    /\ (retained d 4 7 = false ->
        lxml.getparent d' 7 = None
        /\ forall q, lxml.getparent d 7 = Some q -> ~ In 7 (lxml.get_children d' q)).
Proof.
  apply (C4_page_break_retention (lxml.arena (load break_before_chapter)) 0
           (mkBreaksLocals 0 0 false) 4 7).
  - apply (bool_decide_unpack _). vm_compute. exact I.
  - reflexivity.
  - reflexivity.
Defined.

(* --------------------------------------------------------------------- *)
(** ** The heading conversion *)
(* --------------------------------------------------------------------- *)

Section ArenaFields.
Implicit Types (d : lxml.Arena) (e c q x i : nat) (f : lxml.Element -> lxml.Element).














End ArenaFields.
Section NewElement.
Implicit Types (d : lxml.Arena) (x : nat).


End NewElement.









(** C5: the heading rule on example documents.  The level follows the
    keyword priority of the claim, the text is kept, and for
    [<p class="heading1">Chapter One</p>] the result is
    [<h1>Chapter One</h1>] without class.  But a paragraph with an inline
    child followed by text, [Chapter <em>One</em> begins], comes out as
    [Chapter <em>One</em> begins begins]: the loop that is to preserve the
    tail text adds the tail of the moved child to itself.  And a class
    that matched the scan by another keyword than "heading" stays on the
    heading. *)
Theorem C5_child_tail_is_written_twice :
  let result m := markup_at (fst (run_rule_on normalize_headings m)) "ch1.xhtml" in
  result fake_heading = Some (page [leaf "h1" [] (Some "Chapter One")])
  /\ result rich_heading
     = Some (page [Node "h1" [("id", "c1")] (Some "Chapter ") None
                     [Node "em" [] (Some "One") (Some " begins begins") []]])
  /\ result rich_heading <> Some rich_heading_expected
  /\ result chapter_paragraph
     = Some (page [leaf "h2" [("class", "chapter")] (Some "Chapter One")])
  /\ result section_paragraph
     = Some (page [leaf "h3" [("class", "section-head")] (Some "First section")])
  /\ counters (snd (run_rule_on normalize_headings rich_heading))
       !! "headings.converted_fake_headings" = Some 1.
Proof. cbv zeta. vm_compute. repeat split; discriminate. Qed.

(* --------------------------------------------------------------------- *)
(** ** epub_repair/models.py and epub_repair/reporting.py *)
(* --------------------------------------------------------------------- *)

Lemma get_css_files_acc `{PathOps} (self : EpubBook) (w : World) (items : list ManifestItem) :
  forall acc,
    fold_left
      (fun css_files manifest_item =>
         if String.eqb (media_type manifest_item) "text/css"
         then css_files ++ [resolve_path self w (href manifest_item)]
         else css_files) items acc
    = acc ++ map (fun m => resolve_path self w (href m))
               (List.filter (fun m => String.eqb (media_type m) "text/css") items).
Proof.
  induction items as [|m items IH]; intros acc; cbn [fold_left List.filter map].
  - now rewrite app_nil_r.
  - rewrite IH. destruct (String.eqb (media_type m) "text/css"); [|reflexivity].
    cbn [map]. now rewrite <- app_assoc.
Qed.

(** X1: [get_css_files] lists, in the order of the manifest, one path for
    every manifest item of media type text/css and nothing else; and the
    path [resolve_path] gives for a reference exists exactly when the
    file exists next to the package file or under the root. *)
Theorem X1_get_css_files_spec `{PathOps} (self : EpubBook) (w : World) :
  get_css_files self w
  = map (fun m => resolve_path self w (href m))
      (List.filter (fun m => String.eqb (media_type m) "text/css")
         (Py.dict_values (manifest_items self)))
  /\ forall h,
       path_exists w (resolve_path self w h)
       = path_exists w (path_join_resolve (path_parent (opf_path self)) h)
         || path_exists w (path_join_resolve (root_path self) h).
Proof.
  split.
  - unfold get_css_files. now rewrite get_css_files_acc.
  - intros h. unfold resolve_path. cbv zeta.
    destruct (path_exists w (path_join_resolve (path_parent (opf_path self)) h)) eqn:E;
      cbn [negb orb]; [exact E | reflexivity].
Qed.




Lemma total_files_modified_log_change r p s :
  total_files_modified (log_change r p s)
  = if bool_decide (p ∈ map file (changes r)) then total_files_modified r
    else S (total_files_modified r).
Proof.
  unfold total_files_modified, get_summary, log_change. cbn [snd changes].
  rewrite map_app. cbn [map file]. rewrite list_to_set_app_L. cbn [list_to_set].
  rewrite (right_id_L ∅ (∪)).
  case_bool_decide as Hin.
  - f_equal. apply (elem_of_list_to_set (C := gset string)) in Hin.
    rewrite (comm_L (∪)). now apply subseteq_union_1_L, singleton_subseteq_l.
  - rewrite <- (elem_of_list_to_set (C := gset string)) in Hin.
    rewrite size_union by now apply disjoint_singleton_r.
    rewrite size_singleton. lia.
Qed.

(** X3: the summary's [total_files_modified] is the number of different
    files named in the change records: a record for a file that already
    has one leaves it as it is, a record for a new file adds one, whatever
    the description says, and counting a category does not change it.  It
    is never more than the number of records. *)
Theorem X3_total_files_modified (r : Reporter) (p s k : string) (n : nat) :
  total_files_modified (log_change r p s)
  = (if bool_decide (p ∈ map file (changes r)) then total_files_modified r
     else S (total_files_modified r))
  /\ total_files_modified (increment r k n) = total_files_modified r
  /\ total_files_modified r <= length (changes r)
  /\ total_files_modified new_reporter = 0.
Proof.
  split; [apply total_files_modified_log_change|]. split; [reflexivity|]. split; [|reflexivity].
  unfold total_files_modified, get_summary. cbn [snd].
  rewrite <- (length_map file). generalize (map file (changes r)). intros l.
  induction l as [|x l IH]; cbn [list_to_set length]; [now rewrite size_empty|].
  rewrite size_union_alt, size_singleton.
  assert (size (list_to_set l ∖ {[x]} : gset string) <= size (list_to_set l : gset string))
    by now apply subseteq_size, subseteq_difference_l.
  lia.
Qed.
